(** * Simulation service: a shallow embedding of
      [domain/services/simulation_service.py]

    The service orchestrates three collaborators: a document store (the
    [simulations] collection), a text-generation provider and a voice-agent
    provider.  Every operation is embedded as a computation in a small
    state-and-exception monad over a [World] that holds the collection and
    the chronological trace of every observable effect (outbound HTTP
    posts, store operations, console output).  The behaviour of the
    collaborators is an [Env]: all results below hold for every [Env]. *)

From Stdlib Require Import ZArith String Ascii List Bool Lia.
From stdpp Require Import base strings gmap pretty list.

Local Open Scope Z_scope.
Local Open Scope string_scope.
Local Open Scope list_scope.
Local Set Warnings "-register-all".

(** ** Python values *)

(** The values that flow through the service: request attributes, JSON
    bodies and stored document fields. [VNone] is Python's [None] (and
    JSON [null]). *)
Inductive value : Type :=
| VNone
| VBool (b : bool)
| VInt (n : Z)
| VStr (s : string)
| VDatetime (t : Z)
| VObjectId (oid : string)
| VList (items : list value)
| VDict (fields : list (string * value)).

(** A Python [dict] with string keys, in insertion order. *)
Abbreviation dict := (list (string * value)).

(** [d.get(k)] as an option. *)
Fixpoint dict_get (k : string) (d : dict) : option value :=
  match d with
  | [] => None
  | (k', v) :: d' => if String.eqb k k' then Some v else dict_get k d'
  end.

(** [d[k] = v]: an existing key keeps its position, a new key goes last. *)
Fixpoint dict_set (k : string) (v : value) (d : dict) : dict :=
  match d with
  | [] => [(k, v)]
  | (k', v') :: d' =>
      if String.eqb k k' then (k, v) :: d' else (k', v') :: dict_set k v d'
  end.

(** [d.get(k)] as Python has it: [None] for a missing key. *)
Definition dict_get_or_none (k : string) (d : dict) : value :=
  match dict_get k d with Some v => v | None => VNone end.

(** Applying a [$set] document to a stored document, field by field. *)
Definition dict_update (d upd : dict) : dict :=
  fold_left (fun acc kv => dict_set (fst kv) (snd kv) acc) upd d.

(** Python truthiness, as used by [not x] and [x or y]. *)
Definition truthy (v : value) : bool :=
  match v with
  | VNone => false
  | VBool b => b
  | VInt n => negb (n =? 0)%Z
  | VStr s => negb (String.eqb s EmptyString)
  | VDatetime _ => true
  | VObjectId _ => true
  | VList l => match l with [] => false | _ => true end
  | VDict d => match d with [] => false | _ => true end
  end.

(** [a or b]. *)
Definition py_or (a b : value) : value := if truthy a then a else b.

(** Structural equality of values, used by the store to report whether an
    update changed the document. *)
Fixpoint value_eqb (a b : value) : bool :=
  match a, b with
  | VNone, VNone => true
  | VBool x, VBool y => Bool.eqb x y
  | VInt x, VInt y => (x =? y)%Z
  | VStr x, VStr y => String.eqb x y
  | VDatetime x, VDatetime y => (x =? y)%Z
  | VObjectId x, VObjectId y => String.eqb x y
  | VList xs, VList ys =>
      (fix items_eqb (xs ys : list value) : bool :=
         match xs, ys with
         | [], [] => true
         | x :: xs', y :: ys' => value_eqb x y && items_eqb xs' ys'
         | _, _ => false
         end) xs ys
  | VDict xs, VDict ys =>
      (fix fields_eqb (xs ys : dict) : bool :=
         match xs, ys with
         | [], [] => true
         | (k, x) :: xs', (k', y) :: ys' =>
             String.eqb k k' && value_eqb x y && fields_eqb xs' ys'
         | _, _ => false
         end) xs ys
  | _, _ => false
  end.

Definition dict_eqb (a b : dict) : bool := value_eqb (VDict a) (VDict b).

(** [sep.join(parts)]. *)
Fixpoint str_join (sep : string) (parts : list string) : string :=
  match parts with
  | [] => EmptyString
  | [p] => p
  | p :: rest => p +:+ sep +:+ str_join sep rest
  end.

(** [needle in haystack] for strings. *)
Fixpoint str_contains (needle haystack : string) : bool :=
  String.prefix needle haystack ||
  match haystack with
  | EmptyString => false
  | String _ rest => str_contains needle rest
  end.

(** The newline character. *)
Definition newline : string := String (ascii_of_nat 10) EmptyString.

(** ** Exceptions *)

(** [HTTPException] is fastapi's; every other exception class the service
    can meet is only ever observed through [str(e)], so it is kept as its
    message. *)
Inductive exn : Type :=
| HTTPException (status_code : Z) (detail : string)
| Exception (message : string).

(** [str(e)].  For [HTTPException] this is Starlette's [__str__], which
    renders the status code, a colon and the detail. *)
Definition str (e : exn) : string :=
  match e with
  | HTTPException c d => pretty c +:+ ": " +:+ d
  | Exception m => m
  end.

Inductive outcome (A : Type) : Type :=
| Returned (a : A)
| Raised (e : exn).
Arguments Returned {A} a.
Arguments Raised {A} e.

(** [v[key]] on a parsed JSON value. *)
Definition getitem (v key : value) : outcome value :=
  match v, key with
  | VDict d, VStr k =>
      match dict_get k d with
      | Some x => Returned x
      | None => Raised (Exception ("'" +:+ k +:+ "'"))
      end
  | VDict _, VInt n => Raised (Exception (pretty n))
  | VDict _, _ => Raised (Exception "unhashable or missing key")
  | VList l, VInt n =>
      let i := if (n <? 0)%Z then (n + Z.of_nat (length l))%Z else n in
      if (i <? 0)%Z then Raised (Exception "list index out of range")
      else match nth_error l (Z.to_nat i) with
           | Some x => Returned x
           | None => Raised (Exception "list index out of range")
           end
  | VList _, _ =>
      Raised (Exception "list indices must be integers or slices, not str")
  | VStr s, VInt n =>
      let i := if (n <? 0)%Z then (n + Z.of_nat (String.length s))%Z else n in
      if (i <? 0)%Z then Raised (Exception "string index out of range")
      else match String.get (Z.to_nat i) s with
           | Some c => Returned (VStr (String c EmptyString))
           | None => Raised (Exception "string index out of range")
           end
  | VStr _, _ => Raised (Exception "string indices must be integers, not 'str'")
  | VNone, _ => Raised (Exception "'NoneType' object is not subscriptable")
  | VBool _, _ => Raised (Exception "'bool' object is not subscriptable")
  | VInt _, _ => Raised (Exception "'int' object is not subscriptable")
  | VDatetime _, _ =>
      Raised (Exception "'datetime.datetime' object is not subscriptable")
  | VObjectId _, _ => Raised (Exception "'ObjectId' object is not subscriptable")
  end.

(** ** Store identifiers *)

Definition is_hex_digit (c : ascii) : bool :=
  let n := nat_of_ascii c in
  ((48 <=? n) && (n <=? 57) || (65 <=? n) && (n <=? 70)
   || (97 <=? n) && (n <=? 102))%nat.

Definition lower_hex_digit (c : ascii) : ascii :=
  let n := nat_of_ascii c in
  if ((65 <=? n) && (n <=? 70))%nat then ascii_of_nat (n + 32) else c.

(** ASCII white space, as [bytes.fromhex] skips it: space, tab, line
    feed, vertical tab, form feed, carriage return. *)
Definition is_space (c : ascii) : bool :=
  let n := nat_of_ascii c in
  ((n =? 32) || (9 <=? n) && (n <=? 13))%nat.

Fixpoint string_existsb (p : ascii -> bool) (s : string) : bool :=
  match s with
  | EmptyString => false
  | String c s' => p c || string_existsb p s'
  end.

(** [bytes.fromhex(s)], the bytes kept as their lower-case hexadecimal
    digits (what [str] of the identifier shows): white space is skipped
    between bytes, never inside one; [None] stands for the [ValueError]. *)
Fixpoint fromhex (s : string) : option string :=
  match s with
  | EmptyString => Some EmptyString
  | String c rest =>
      if is_space c then fromhex rest
      else if is_hex_digit c then
        match rest with
        | String d rest' =>
            if is_hex_digit d then
              match fromhex rest' with
              | Some digits =>
                  Some (String (lower_hex_digit c)
                          (String (lower_hex_digit d) digits))
              | None => None
              end
            else None
        | EmptyString => None
        end
      else None
  end.

Definition single_quote : ascii := ascii_of_nat 39.
Definition double_quote : ascii := ascii_of_nat 34.
Definition backslash : ascii := ascii_of_nat 92.

Definition hex_digit_of (n : nat) : ascii :=
  if (n <? 10)%nat then ascii_of_nat (48 + n) else ascii_of_nat (87 + n).

(** One character inside [repr(s)], for the quote [q] in use.  A
    character stands for the code point of its number (below 256). *)
Definition repr_char (q c : ascii) : string :=
  let n := nat_of_ascii c in
  if Ascii.eqb c backslash then String backslash (String backslash EmptyString)
  else if Ascii.eqb c q then String backslash (String q EmptyString)
  else if (n =? 9)%nat then "\t"
  else if (n =? 10)%nat then "\n"
  else if (n =? 13)%nat then "\r"
  else if ((n <? 32) || (127 <=? n) && (n <=? 160) || (n =? 173))%nat
  then "\x" +:+ String (hex_digit_of (n / 16))
                  (String (hex_digit_of (n mod 16)) EmptyString)
  else String c EmptyString.

Fixpoint repr_chars (q : ascii) (s : string) : string :=
  match s with
  | EmptyString => EmptyString
  | String c s' => repr_char q c +:+ repr_chars q s'
  end.

(** [repr(s)] of a string: single quotes, unless the string has a single
    quote and no double quote. *)
Definition py_repr (s : string) : string :=
  let q :=
    if string_existsb (Ascii.eqb single_quote) s
       && negb (string_existsb (Ascii.eqb double_quote) s)
    then double_quote else single_quote in
  String q (repr_chars q s) +:+ String q EmptyString.

(** [bson.ObjectId(s)] for a string argument: a string of 24 characters
    that [bytes.fromhex] accepts gives the identifier of those bytes;
    anything else raises [InvalidId] with the string formatted by [%r]. *)
Definition ObjectId (s : string) : outcome string :=
  let invalid :=
    Raised (Exception (py_repr s +:+
      " is not a valid ObjectId, it must be a 12-byte input or a 24-character hex string")) in
  if (String.length s =? 24)%nat
  then match fromhex s with
       | Some digits => Returned digits
       | None => invalid
       end
  else invalid.

(** ** Request contracts

    The request classes are declared in [api/schemas/requests.py], which
    is not among the sources at hand; the records below have exactly the
    attributes the service reads.  Attribute values are kept as untyped
    Python values, so nothing is assumed about the declared types beyond
    what the service itself relies on; an attribute the caller left out
    holds [VNone], which is what the service tests with [is not None]. *)

Module ScriptLine.
(** Modelled from the spec: the script-line class of
    [api/schemas/requests.py] is missing; a line has a role, a sentence
    and "other per-line authoring fields". *)
Record t : Type := {
  role : string;
  script_sentence : string;
  other_fields : dict
}.
(** [s.dict()]. *)
Definition to_dict (s : t) : value :=
  VDict (("script_sentence", VStr (script_sentence s))
           :: ("role", VStr (role s)) :: other_fields s).
End ScriptLine.

Module CreateSimulationRequest.
(** Modelled from the spec: [CreateSimulationRequest] of
    [api/schemas/requests.py] is missing; these are the attributes
    [create_simulation] reads. *)
Record t : Type := {
  user_id : value;
  name : value;
  division_id : value;
  department_id : value;
  type : value;
  script : list ScriptLine.t;
  tags : value
}.
End CreateSimulationRequest.

Module Lvl1.
(** Modelled from the spec: the class of the [lvl1] sub-block is missing;
    these are the attributes [update_simulation] reads from it. *)
Record t : Type := {
  is_enabled : value;
  enable_practice : value;
  hide_agent_script : value;
  hide_customer_script : value;
  hide_keyword_scores : value;
  hide_sentiment_scores : value;
  hide_highlights : value;
  hide_coaching_tips : value;
  enable_post_simulation_survey : value;
  ai_powered_pauses_and_feedback : value
}.
End Lvl1.

Module Lvl2.
(** Modelled from the spec: the class of the [lvl2] sub-block is missing. *)
Record t : Type := { is_enabled : value }.
End Lvl2.

Module Lvl3.
(** Modelled from the spec: the class of the [lvl3] sub-block is missing. *)
Record t : Type := { is_enabled : value }.
End Lvl3.

Module SimulationScoringMetrics.
(** Modelled from the spec: the class of the scoring-metrics sub-block is
    missing. *)
Record t : Type := {
  is_enabled : value;
  keyword_score : value;
  click_score : value
}.
End SimulationScoringMetrics.

Module SimPractice.
(** Modelled from the spec: the class of the practice-settings sub-block
    is missing. *)
Record t : Type := {
  is_unlimited : value;
  pre_requisite_limit : value
}.
End SimPractice.

Module UpdateSimulationRequest.
(** Modelled from the spec: [UpdateSimulationRequest] of
    [api/schemas/requests.py] is missing; these are the attributes
    [update_simulation] reads, by name or through [getattr]. *)
Record t : Type := {
  user_id : value;
  name : value;
  division_id : value;
  department_id : value;
  type : value;
  tags : value;
  status : value;
  estimated_time_to_attempt_in_mins : value;
  key_objectives : value;
  overview_video : value;
  quick_tips : value;
  voice_id : value;
  language : value;
  mood : value;
  voice_speed : value;
  prompt : value;
  simulation_completion_repetition : value;
  simulation_max_repetition : value;
  final_simulation_score_criteria : value;
  is_locked : value;
  version : value;
  assistant_id : value;
  slides : value;
  script : option (list ScriptLine.t);
  lvl1 : option Lvl1.t;
  lvl2 : option Lvl2.t;
  lvl3 : option Lvl3.t;
  simulation_scoring_metrics : option SimulationScoringMetrics.t;
  sim_practice : option SimPractice.t
}.

(** The attributes that [getattr] can reach by name in the field
    mapping loop. *)
Definition attributes : list (string * (t -> value)) :=
  [ ("name", name); ("division_id", division_id);
    ("department_id", department_id); ("type", type); ("tags", tags);
    ("status", status);
    ("estimated_time_to_attempt_in_mins", estimated_time_to_attempt_in_mins);
    ("key_objectives", key_objectives); ("overview_video", overview_video);
    ("quick_tips", quick_tips); ("voice_id", voice_id);
    ("language", language); ("mood", mood); ("voice_speed", voice_speed);
    ("prompt", prompt);
    ("simulation_completion_repetition", simulation_completion_repetition);
    ("simulation_max_repetition", simulation_max_repetition);
    ("final_simulation_score_criteria", final_simulation_score_criteria);
    ("is_locked", is_locked); ("version", version);
    ("assistant_id", assistant_id); ("slides", slides);
    ("user_id", user_id) ].
End UpdateSimulationRequest.

Fixpoint assoc {B : Type} (k : string) (l : list (string * B)) : option B :=
  match l with
  | [] => None
  | (k', b) :: l' => if String.eqb k k' then Some b else assoc k l'
  end.

(** [getattr(request, field_name)]; an unknown name is an
    [AttributeError]. *)
Definition getattr (request : UpdateSimulationRequest.t) (field_name : string)
  : outcome value :=
  match assoc field_name UpdateSimulationRequest.attributes with
  | Some get => Returned (get request)
  | None =>
      Raised (Exception ("'UpdateSimulationRequest' object has no attribute '"
                           +:+ field_name +:+ "'"))
  end.

(** ** The world and the collaborators *)

Module ClientResponse.
(** What the service reads from an [aiohttp] response: the status, the
    outcome of [await response.json()] and the text the object formats
    to. *)
Record t : Type := {
  status : Z;
  json : outcome value;
  repr : string
}.
End ClientResponse.

(** Observable effects, in the order they happen. *)
Inductive event : Type :=
| HttpPost (url : string) (headers : dict) (body : value)
| Print (v : value)
| DbInsertOne (doc : dict)
| DbFindOne (oid : string)
| DbUpdateOne (oid : string) (set_doc : dict).

Record World : Type := {
  simulations : gmap string dict;
  trace : list event;
  ticks : nat
}.

(** The behaviour of everything outside the service.  The two API keys
    come from [config] ([config.py] declares no [OPENAI_API_KEY]; it is
    taken as given here). *)
Record Env : Type := {
  OPENAI_API_KEY : string;
  RETELL_API_KEY : string;
  (** [session.post(url, headers=..., json=...)]: a transport failure or
      a response. *)
  session_post : string -> dict -> value -> outcome ClientResponse.t;
  (** the clock reading at the n-th call of [datetime.utcnow()] *)
  clock : nat -> Z;
  (** the message with which the driver fails to insert a document
      (encoding, connection), if it does *)
  insert_error : dict -> option string;
  (** the identifier given to an inserted document *)
  new_object_id : gmap string dict -> string;
  (** the message of the store when that identifier is taken *)
  duplicate_key_error : string -> string
}.

Definition is_provider_call (e : event) : bool :=
  match e with HttpPost _ _ _ => true | _ => false end.

Definition is_store_write (e : event) : bool :=
  match e with DbInsertOne _ | DbUpdateOne _ _ => true | _ => false end.

(** The provider calls of a trace, in order. *)
Definition provider_calls (t : list event) : list event :=
  List.filter is_provider_call t.

(** The store writes of a trace, in order. *)
Definition store_writes (t : list event) : list event :=
  List.filter is_store_write t.

(** ** The monad of service computations *)

Definition M (A : Type) : Type := World -> outcome A * World.

Definition ret {A} (a : A) : M A := fun w => (Returned a, w).

Definition raise {A} (e : exn) : M A := fun w => (Raised e, w).

Definition bind {A B} (m : M A) (k : A -> M B) : M B :=
  fun w =>
    match m w with
    | (Returned a, w') => k a w'
    | (Raised e, w') => (Raised e, w')
    end.

(** [try: body except ... as e: handler e]. *)
Definition try_except {A} (body : M A) (handler : exn -> M A) : M A :=
  fun w =>
    match body w with
    | (Returned a, w') => (Returned a, w')
    | (Raised e, w') => handler e w'
    end.

(** A pure computation that may raise. *)
Definition lift {A} (o : outcome A) : M A := fun w => (o, w).

Notation "'let*' x ':=' c 'in' k" := (bind c (fun x => k))
  (at level 10, x name, c at level 100, k at level 200).
Notation "c ';;' k" := (bind c (fun _ => k))
  (at level 100, k at level 200, right associativity).

(** World updates. *)
Definition add_event (e : event) (w : World) : World :=
  {| simulations := simulations w; trace := trace w ++ [e]; ticks := ticks w |}.

Definition tick (w : World) : World :=
  {| simulations := simulations w; trace := trace w; ticks := S (ticks w) |}.

Definition with_simulations (s : gmap string dict) (w : World) : World :=
  {| simulations := s; trace := trace w; ticks := ticks w |}.

Definition log (e : event) : M unit := fun w => (Returned tt, add_event e w).

Definition set_simulations (s : gmap string dict) : M unit :=
  fun w => (Returned tt, with_simulations s w).

Definition get_simulations : M (gmap string dict) :=
  fun w => (Returned (simulations w), w).

(** [x is None]. *)
Definition is_None (v : value) : bool :=
  match v with VNone => true | _ => false end.

(** [not doc] for the result of a [find_one]. *)
Definition not_found (doc : option dict) : bool :=
  match doc with
  | Some (_ :: _) => false
  | _ => true
  end.

Module UpdateResult.
Record t : Type := { matched_count : Z; modified_count : Z }.
End UpdateResult.

(** The request-to-document name table of [update_simulation]. *)
Definition field_mappings : list (string * string) :=
  [ ("name", "name");
    ("division_id", "divisionId");
    ("department_id", "departmentId");
    ("type", "type");
    ("tags", "tags");
    ("status", "status");
    ("estimated_time_to_attempt_in_mins", "estimatedTimeToAttemptInMins");
    ("key_objectives", "keyObjectives");
    ("overview_video", "overviewVideo");
    ("quick_tips", "quickTips");
    ("voice_id", "voiceId");
    ("language", "language");
    ("mood", "mood");
    ("voice_speed", "voice_speed");
    ("prompt", "prompt");
    ("simulation_completion_repetition", "simulationCompletionRepetition");
    ("simulation_max_repetition", "simulationMaxRepetition");
    ("final_simulation_score_criteria", "finalSimulationScoreCriteria");
    ("is_locked", "isLocked");
    ("version", "version");
    ("assistant_id", "assistantId");
    ("slides", "slides") ].

(** The fixed system instruction sent to the text-generation provider. *)
Definition system_instruction : string :=
  "Create a detailed prompt for a customer service simulation based on the following conversation. The prompt should help generate realistic customer responses that match the conversation flow and context. Consider the sequence of interactions and maintain consistency with the original conversation.".

Definition openai_url : string := "https://api.openai.com/v1/chat/completions".
Definition create_llm_url : string := "https://api.retellai.com/create-retell-llm".
Definition create_agent_url : string := "https://api.retellai.com/create-agent".
Definition create_web_call_url : string :=
  "https://api.retellai.com/v2/create-web-call".

(** The [headers] dictionary every client builds. *)
Definition bearer_headers (key : string) : dict :=
  [ ("Authorization", VStr ("Bearer " +:+ key));
    ("Content-Type", VStr "application/json") ].

(** ** The service *)

Section SimulationService.
Context (env : Env).

(** *** Collaborator primitives *)

Definition post (url : string) (headers : dict) (body : value)
  : M ClientResponse.t :=
  log (HttpPost url headers body) ;;
  lift (session_post env url headers body).

Definition print (v : value) : M unit := log (Print v).

Definition utcnow : M value :=
  fun w => (Returned (VDatetime (clock env (ticks w))), tick w).

(** [db.simulations.insert_one(doc)]: the driver may fail before
    anything is stored; otherwise the document gets its identifier, and
    the store refuses one that is taken. *)
Definition insert_one (doc : dict) : M string :=
  log (DbInsertOne doc) ;;
  match insert_error env doc with
  | Some message => raise (Exception message)
  | None =>
      let* coll := get_simulations in
      let oid := new_object_id env coll in
      match coll !! oid with
      | Some _ => raise (Exception (duplicate_key_error env oid))
      | None => set_simulations (<[oid := doc]> coll) ;; ret oid
      end
  end.

(** [db.simulations.find_one({"_id": oid})]. *)
Definition find_one (oid : string) : M (option dict) :=
  log (DbFindOne oid) ;;
  let* coll := get_simulations in
  ret (match coll !! oid with
       | Some fields => Some (("_id", VObjectId oid) :: fields)
       | None => None
       end).

(** [db.simulations.update_one({"_id": oid}, {"$set": set_doc})]: the
    document is rewritten only when a field really changes, and the
    result counts it as modified only then. *)
Definition update_one (oid : string) (set_doc : dict) : M UpdateResult.t :=
  log (DbUpdateOne oid set_doc) ;;
  let* coll := get_simulations in
  match coll !! oid with
  | None =>
      ret {| UpdateResult.matched_count := 0;
             UpdateResult.modified_count := 0 |}
  | Some fields =>
      let fields' := dict_update fields set_doc in
      if dict_eqb fields' fields
      then ret {| UpdateResult.matched_count := 1;
                  UpdateResult.modified_count := 0 |}
      else set_simulations (<[oid := fields']> coll) ;;
           ret {| UpdateResult.matched_count := 1;
                  UpdateResult.modified_count := 1 |}
  end.

(** *** External resource clients *)

Definition _create_retell_llm (prompt : value) : M value :=
  try_except
    (let headers := bearer_headers (RETELL_API_KEY env) in
     let data := VDict [("general_prompt", prompt)] in
     let* response := post create_llm_url headers data in
     if negb (ClientResponse.status response =? 201)%Z
     then raise (HTTPException (ClientResponse.status response)
                   "Failed to create Retell LLM")
     else lift (ClientResponse.json response))
    (fun e =>
       raise (HTTPException 500 ("Error creating Retell LLM: " +:+ str e))).

Definition _create_retell_agent (llm_id voice_id : value) : M value :=
  try_except
    (let headers := bearer_headers (RETELL_API_KEY env) in
     let data :=
       VDict [ ("response_engine",
                 VDict [("llm_id", llm_id); ("type", VStr "retell-llm")]);
               ("voice_id", voice_id) ] in
     let* response := post create_agent_url headers data in
     if negb (ClientResponse.status response =? 201)%Z
     then raise (HTTPException (ClientResponse.status response)
                   "Failed to create Retell Agent")
     else lift (ClientResponse.json response))
    (fun e =>
       raise (HTTPException 500 ("Error creating Retell Agent: " +:+ str e))).

(** The transcript line of one script line. *)
Definition transcript_line (s : ScriptLine.t) : string :=
  ScriptLine.role s +:+ ": " +:+ ScriptLine.script_sentence s.

Definition _generate_simulation_prompt (script : list ScriptLine.t)
  : M value :=
  try_except
    (let conversation := str_join newline (map transcript_line script) in
     let headers := bearer_headers (OPENAI_API_KEY env) in
     let data :=
       VDict [ ("model", VStr "gpt-4o");
               ("messages",
                 VList [ VDict [ ("role", VStr "system");
                                 ("content", VStr system_instruction) ];
                         VDict [ ("role", VStr "user");
                                 ("content", VStr conversation) ] ]) ] in
     let* response := post openai_url headers data in
     if negb (ClientResponse.status response =? 200)%Z
     then raise (HTTPException (ClientResponse.status response)
                   (ClientResponse.repr response))
     else
       let* result := lift (ClientResponse.json response) in
       let* choices := lift (getitem result (VStr "choices")) in
       let* choice := lift (getitem choices (VInt 0)) in
       let* message := lift (getitem choice (VStr "message")) in
       lift (getitem message (VStr "content")))
    (fun e =>
       raise (HTTPException 500
                ("Error generating simulation prompt: " +:+ str e))).

Definition _create_web_call (agent_id : value) : M value :=
  try_except
    (let headers := bearer_headers (RETELL_API_KEY env) in
     let data := VDict [("agent_id", agent_id)] in
     let* response := post create_web_call_url headers data in
     let* body := lift (ClientResponse.json response) in
     print body ;;
     if negb (ClientResponse.status response =? 201)%Z
     then raise (HTTPException (ClientResponse.status response)
                   "Failed to create web call")
     else lift (ClientResponse.json response))
    (fun e =>
       raise (HTTPException 500 ("Error creating web call: " +:+ str e))).

(** *** Create *)

Definition create_simulation (request : CreateSimulationRequest.t)
  : M dict :=
  try_except
    (let* prompt :=
       _generate_simulation_prompt (CreateSimulationRequest.script request) in
     let* last_modified := utcnow in
     let* created_on := utcnow in
     let simulation_doc : dict :=
       [ ("name", CreateSimulationRequest.name request);
         ("divisionId", CreateSimulationRequest.division_id request);
         ("departmentId", CreateSimulationRequest.department_id request);
         ("type", CreateSimulationRequest.type request);
         ("script",
           VList (map ScriptLine.to_dict
                    (CreateSimulationRequest.script request)));
         ("lastModifiedBy", CreateSimulationRequest.user_id request);
         ("lastModified", last_modified);
         ("createdBy", CreateSimulationRequest.user_id request);
         ("createdOn", created_on);
         ("status", VStr "draft");
         ("version", VInt 1);
         ("prompt", prompt);
         ("tags", CreateSimulationRequest.tags request) ] in
     let* inserted_id := insert_one simulation_doc in
     ret [ ("id", VStr inserted_id);
           ("status", VStr "success");
           ("prompt", prompt) ])
    (fun e =>
       raise (HTTPException 500 ("Error creating simulation: " +:+ str e))).

(** *** Update *)

(** The local helper of [update_simulation]: stage a request attribute
    under its document name when it is not [None]. *)
Definition add_if_exists (request : UpdateSimulationRequest.t)
    (update_doc : dict) (field_name : string)
    (camel_case_name : option string) : outcome dict :=
  match getattr request field_name with
  | Raised e => Raised e
  | Returned v =>
      if negb (is_None v)
      then
        let key :=
          match camel_case_name with
          | Some c => if String.eqb c EmptyString then field_name else c
          | None => field_name
          end in
        Returned (dict_set key v update_doc)
      else Returned update_doc
  end.

(** The loop over [field_mappings.items()]. *)
Fixpoint add_mapped_fields (request : UpdateSimulationRequest.t)
    (mappings : list (string * string)) (update_doc : dict)
  : outcome dict :=
  match mappings with
  | [] => Returned update_doc
  | (field, doc_field) :: rest =>
      match add_if_exists request update_doc field (Some doc_field) with
      | Returned update_doc' => add_mapped_fields request rest update_doc'
      | Raised e => Raised e
      end
  end.

Definition lvl1_doc (l : Lvl1.t) : value :=
  VDict [ ("isEnabled", Lvl1.is_enabled l);
          ("enablePractice", Lvl1.enable_practice l);
          ("hideAgentScript", Lvl1.hide_agent_script l);
          ("hideCustomerScript", Lvl1.hide_customer_script l);
          ("hideKeywordScores", Lvl1.hide_keyword_scores l);
          ("hideSentimentScores", Lvl1.hide_sentiment_scores l);
          ("hideHighlights", Lvl1.hide_highlights l);
          ("hideCoachingTips", Lvl1.hide_coaching_tips l);
          ("enablePostSimulationSurvey", Lvl1.enable_post_simulation_survey l);
          ("aiPoweredPausesAndFeedback",
            Lvl1.ai_powered_pauses_and_feedback l) ].

(** The "special objects" block: the script and the configuration
    sub-blocks, each replaced wholesale when supplied. *)
Definition add_special_objects (request : UpdateSimulationRequest.t)
    (update_doc : dict) : dict :=
  let update_doc :=
    match UpdateSimulationRequest.script request with
    | Some script =>
        dict_set "script" (VList (map ScriptLine.to_dict script)) update_doc
    | None => update_doc
    end in
  let update_doc :=
    match UpdateSimulationRequest.lvl1 request with
    | Some l => dict_set "lvl1" (lvl1_doc l) update_doc
    | None => update_doc
    end in
  let update_doc :=
    match UpdateSimulationRequest.lvl2 request with
    | Some l =>
        dict_set "lvl2" (VDict [("isEnabled", Lvl2.is_enabled l)]) update_doc
    | None => update_doc
    end in
  let update_doc :=
    match UpdateSimulationRequest.lvl3 request with
    | Some l =>
        dict_set "lvl3" (VDict [("isEnabled", Lvl3.is_enabled l)]) update_doc
    | None => update_doc
    end in
  let update_doc :=
    match UpdateSimulationRequest.simulation_scoring_metrics request with
    | Some m =>
        dict_set "simulationScoringMetrics"
          (VDict [ ("isEnabled", SimulationScoringMetrics.is_enabled m);
                   ("keywordScore", SimulationScoringMetrics.keyword_score m);
                   ("clickScore", SimulationScoringMetrics.click_score m) ])
          update_doc
    | None => update_doc
    end in
  match UpdateSimulationRequest.sim_practice request with
  | Some p =>
      dict_set "simPractice"
        (VDict [ ("isUnlimited", SimPractice.is_unlimited p);
                 ("preRequisiteLimit", SimPractice.pre_requisite_limit p) ])
        update_doc
  | None => update_doc
  end.

(** "Create LLM and Agent if prompt is provided". *)
Definition provision_llm_and_agent (request : UpdateSimulationRequest.t)
    (update_doc : dict) : M dict :=
  if negb (is_None (UpdateSimulationRequest.prompt request))
  then
    let* llm_response :=
      _create_retell_llm (UpdateSimulationRequest.prompt request) in
    let* llm_id := lift (getitem llm_response (VStr "llm_id")) in
    let update_doc := dict_set "llmId" llm_id update_doc in
    let* llm_id_arg := lift (getitem llm_response (VStr "llm_id")) in
    let* agent_response :=
      _create_retell_agent llm_id_arg
        (py_or (UpdateSimulationRequest.voice_id request)
               (VStr "11labs-Adrian")) in
    let* agent_id := lift (getitem agent_response (VStr "agent_id")) in
    ret (dict_set "agentId" agent_id update_doc)
  else ret update_doc.

Definition update_simulation (sim_id : string)
    (request : UpdateSimulationRequest.t) : M dict :=
  try_except
    (let* sim_id_object := lift (ObjectId sim_id) in
     let* existing_sim := find_one sim_id_object in
     if not_found existing_sim
     then raise (HTTPException 404
                   ("Simulation with id " +:+ sim_id +:+ " not found"))
     else
       let* update_doc := lift (add_mapped_fields request field_mappings []) in
       let update_doc := add_special_objects request update_doc in
       let* update_doc := provision_llm_and_agent request update_doc in
       let* now := utcnow in
       let update_doc := dict_set "lastModified" now update_doc in
       let update_doc :=
         dict_set "lastModifiedBy" (UpdateSimulationRequest.user_id request)
           update_doc in
       let* result := update_one sim_id_object update_doc in
       if (UpdateResult.modified_count result =? 0)%Z
       then raise (HTTPException 500 "Failed to update simulation")
       else ret [("id", VStr sim_id); ("status", VStr "success")])
    (fun e =>
       match e with
       | HTTPException _ _ => raise e
       | Exception _ =>
           raise (HTTPException 500
                    ("Error updating simulation: " +:+ str e))
       end).

(** *** Preview *)

Definition start_audio_simulation_preview (sim_id : string)
    (user_id : value) : M dict :=
  try_except
    (let* sim_id_object := lift (ObjectId sim_id) in
     let* simulation := find_one sim_id_object in
     if not_found simulation
     then raise (HTTPException 404
                   ("Simulation with id " +:+ sim_id +:+ " not found"))
     else
       let agent_id :=
         dict_get_or_none "agentId"
           (match simulation with Some d => d | None => [] end) in
       if negb (truthy agent_id)
       then raise (HTTPException 400
                     "Simulation does not have an agent configured")
       else
         let* web_call := _create_web_call agent_id in
         let* access_token := lift (getitem web_call (VStr "access_token")) in
         ret [("access_token", access_token)])
    (fun e =>
       match e with
       | HTTPException _ _ => raise e
       | Exception _ =>
           raise (HTTPException 500
                    ("Error starting audio simulation preview: " +:+ str e))
       end).

End SimulationService.

(** ** Vocabulary of the specification *)

(** A failure with the distinct not-found condition. *)
Definition is_not_found {A} (o : outcome A) : Prop :=
  exists detail, o = Raised (HTTPException 404 detail).

(** The operation raised. *)
Definition failed {A} (o : outcome A) : Prop := exists e, o = Raised e.

(** [haystack] carries [needle] somewhere inside. *)
Definition carries (needle haystack : string) : Prop :=
  exists before after, haystack = before +:+ needle +:+ after.

(** The record an identifier string resolves to, if any. *)
Definition resolve (w : World) (sim_id : string) : option dict :=
  match ObjectId sim_id with
  | Returned oid => simulations w !! oid
  | Raised _ => None
  end.

(** A field of a stored record. *)
Definition stored_field (w : World) (oid field : string) : option value :=
  match simulations w !! oid with
  | Some doc => dict_get field doc
  | None => None
  end.

(** Every request attribute that has a stored counterpart, with the name
    of that counterpart: the name table and the special objects. *)
Definition request_document_fields : list (string * string) :=
  field_mappings ++
  [ ("script", "script"); ("lvl1", "lvl1"); ("lvl2", "lvl2");
    ("lvl3", "lvl3");
    ("simulation_scoring_metrics", "simulationScoringMetrics");
    ("sim_practice", "simPractice") ].

Definition option_is_none {A} (o : option A) : bool :=
  match o with None => true | Some _ => false end.

(** The request leaves the attribute out. *)
Definition absent (request : UpdateSimulationRequest.t) (field : string)
  : bool :=
  match assoc field UpdateSimulationRequest.attributes with
  | Some get => is_None (get request)
  | None =>
      if String.eqb field "script"
      then option_is_none (UpdateSimulationRequest.script request)
      else if String.eqb field "lvl1"
      then option_is_none (UpdateSimulationRequest.lvl1 request)
      else if String.eqb field "lvl2"
      then option_is_none (UpdateSimulationRequest.lvl2 request)
      else if String.eqb field "lvl3"
      then option_is_none (UpdateSimulationRequest.lvl3 request)
      else if String.eqb field "simulation_scoring_metrics"
      then option_is_none
             (UpdateSimulationRequest.simulation_scoring_metrics request)
      else if String.eqb field "sim_practice"
      then option_is_none (UpdateSimulationRequest.sim_practice request)
      else false
  end.

(** What the special-objects block stages under a document name. *)
Definition special_value (request : UpdateSimulationRequest.t) (c : string)
  : option value :=
  if String.eqb c "simPractice" then
    match UpdateSimulationRequest.sim_practice request with
    | Some p =>
        Some (VDict [ ("isUnlimited", SimPractice.is_unlimited p);
                      ("preRequisiteLimit", SimPractice.pre_requisite_limit p) ])
    | None => None
    end
  else if String.eqb c "simulationScoringMetrics" then
    match UpdateSimulationRequest.simulation_scoring_metrics request with
    | Some m =>
        Some (VDict [ ("isEnabled", SimulationScoringMetrics.is_enabled m);
                      ("keywordScore", SimulationScoringMetrics.keyword_score m);
                      ("clickScore", SimulationScoringMetrics.click_score m) ])
    | None => None
    end
  else if String.eqb c "lvl3" then
    match UpdateSimulationRequest.lvl3 request with
    | Some l => Some (VDict [("isEnabled", Lvl3.is_enabled l)])
    | None => None
    end
  else if String.eqb c "lvl2" then
    match UpdateSimulationRequest.lvl2 request with
    | Some l => Some (VDict [("isEnabled", Lvl2.is_enabled l)])
    | None => None
    end
  else if String.eqb c "lvl1" then
    match UpdateSimulationRequest.lvl1 request with
    | Some l => Some (lvl1_doc l)
    | None => None
    end
  else if String.eqb c "script" then
    match UpdateSimulationRequest.script request with
    | Some script => Some (VList (map ScriptLine.to_dict script))
    | None => None
    end
  else None.

(** What the name-table loop stages under a document name, for a table
    [l]. *)
Definition mapped_value (request : UpdateSimulationRequest.t)
    (l : list (string * string)) (c : string) : option value :=
  match List.find (fun p => String.eqb (snd p) c) l with
  | Some (f, _) =>
      match getattr request f with
      | Returned v => if is_None v then None else Some v
      | Raised _ => None
      end
  | None => None
  end.

(** The request bodies of the two provisioning calls. *)
Definition llm_body (prompt : value) : value :=
  VDict [("general_prompt", prompt)].

Definition agent_body (llm_id voice_id : value) : value :=
  VDict [ ("response_engine",
            VDict [("llm_id", llm_id); ("type", VStr "retell-llm")]);
          ("voice_id", voice_id) ].

(** The body sent to the text-generation provider for a transcript. *)
Definition chat_body (conversation : string) : value :=
  VDict [ ("model", VStr "gpt-4o");
          ("messages",
            VList [ VDict [ ("role", VStr "system");
                            ("content", VStr system_instruction) ];
                    VDict [ ("role", VStr "user");
                            ("content", VStr conversation) ] ]) ].


(** A provider answered a post with the success status [code] and a body
    that parses to [body]. *)
Definition answers (env : Env) (url : string) (key : string) (request : value)
    (code : Z) (body : value) : Prop :=
  exists response,
    session_post env url (bearer_headers key) request = Returned response
    /\ ClientResponse.status response = code
    /\ ClientResponse.json response = Returned body.

(** The voice the specification's wording asks for: the supplied voice
    identifier, or the default when none is given. *)
Definition voice_as_worded (request : UpdateSimulationRequest.t) : value :=
  if is_None (UpdateSimulationRequest.voice_id request)
  then VStr "11labs-Adrian"
  else UpdateSimulationRequest.voice_id request.

(** ** Sample collaborators, requests and worlds *)

Module Sample.

Definition ok_response (body : value) (code : Z) : ClientResponse.t :=
  {| ClientResponse.status := code;
     ClientResponse.json := Returned body;
     ClientResponse.repr := "<ClientResponse>" |}.

(** A response whose body does not parse as JSON. *)
Definition unparsable_response (code : Z) : ClientResponse.t :=
  {| ClientResponse.status := code;
     ClientResponse.json :=
       Raised (Exception "Expecting value: line 1 column 1 (char 0)");
     ClientResponse.repr := "<ClientResponse>" |}.

(** Providers that answer every call with the documented success. *)
Definition healthy_post (url : string) (headers : dict) (body : value)
  : outcome ClientResponse.t :=
  if String.eqb url openai_url then
    Returned (ok_response
      (VDict [("choices",
                VList [VDict [("message",
                                VDict [("content", VStr "Act as a customer.")])]])])
      200)
  else if String.eqb url create_llm_url then
    Returned (ok_response (VDict [("llm_id", VStr "llm_1")]) 201)
  else if String.eqb url create_agent_url then
    Returned (ok_response (VDict [("agent_id", VStr "agent_1")]) 201)
  else
    Returned (ok_response (VDict [("access_token", VStr "token_1")]) 201).

(** Providers that answer every call with the given status. *)
Definition failing_post (code : Z) (url : string) (headers : dict)
    (body : value) : outcome ClientResponse.t :=
  Returned (ok_response (VDict [("error", VStr "unavailable")]) code).

(** The agent provider accepts the LLM and refuses the agent. *)
Definition agent_refusing_post (url : string) (headers : dict) (body : value)
  : outcome ClientResponse.t :=
  if String.eqb url create_agent_url
  then failing_post 422 url headers body
  else healthy_post url headers body.

Definition fresh_id : string := "65a1b2c3d4e5f60718293a4c".
Definition known_id : string := "65a1b2c3d4e5f60718293a4b".
Definition bare_id : string := "65a1b2c3d4e5f60718293a4d".

Definition make_env
    (p : string -> dict -> value -> outcome ClientResponse.t) : Env :=
  {| OPENAI_API_KEY := "sk-test";
     RETELL_API_KEY := "key_test";
     session_post := p;
     clock := fun n => (1000 + Z.of_nat n)%Z;
     insert_error := fun _ => None;
     new_object_id := fun _ => fresh_id;
     duplicate_key_error := fun oid => "E11000 duplicate key: " +:+ oid |}.

Definition healthy : Env := make_env healthy_post.
Definition failing (code : Z) : Env := make_env (failing_post code).
Definition agent_refusing : Env := make_env agent_refusing_post.
Definition unparsable (code : Z) : Env :=
  make_env (fun _ _ _ => Returned (unparsable_response code)).

Definition line (r s : string) : ScriptLine.t :=
  {| ScriptLine.role := r;
     ScriptLine.script_sentence := s;
     ScriptLine.other_fields := [] |}.

Definition refund_script : list ScriptLine.t :=
  [ line "agent" "Hello, how can I help?";
    line "customer" "I need a refund." ].

Definition create_request : CreateSimulationRequest.t :=
  {| CreateSimulationRequest.user_id := VStr "u1";
     CreateSimulationRequest.name := VStr "Refunds";
     CreateSimulationRequest.division_id := VStr "div1";
     CreateSimulationRequest.department_id := VStr "dep1";
     CreateSimulationRequest.type := VStr "audio";
     CreateSimulationRequest.script := refund_script;
     CreateSimulationRequest.tags := VList [VStr "billing"] |}.

(** An update request that carries only the given attributes. *)
Definition update_request (name prompt voice_id : value)
  : UpdateSimulationRequest.t :=
  {| UpdateSimulationRequest.user_id := VStr "u2";
     UpdateSimulationRequest.name := name;
     UpdateSimulationRequest.division_id := VNone;
     UpdateSimulationRequest.department_id := VNone;
     UpdateSimulationRequest.type := VNone;
     UpdateSimulationRequest.tags := VNone;
     UpdateSimulationRequest.status := VNone;
     UpdateSimulationRequest.estimated_time_to_attempt_in_mins := VNone;
     UpdateSimulationRequest.key_objectives := VNone;
     UpdateSimulationRequest.overview_video := VNone;
     UpdateSimulationRequest.quick_tips := VNone;
     UpdateSimulationRequest.voice_id := voice_id;
     UpdateSimulationRequest.language := VNone;
     UpdateSimulationRequest.mood := VNone;
     UpdateSimulationRequest.voice_speed := VNone;
     UpdateSimulationRequest.prompt := prompt;
     UpdateSimulationRequest.simulation_completion_repetition := VNone;
     UpdateSimulationRequest.simulation_max_repetition := VNone;
     UpdateSimulationRequest.final_simulation_score_criteria := VNone;
     UpdateSimulationRequest.is_locked := VNone;
     UpdateSimulationRequest.version := VNone;
     UpdateSimulationRequest.assistant_id := VNone;
     UpdateSimulationRequest.slides := VNone;
     UpdateSimulationRequest.script := None;
     UpdateSimulationRequest.lvl1 := None;
     UpdateSimulationRequest.lvl2 := None;
     UpdateSimulationRequest.lvl3 := None;
     UpdateSimulationRequest.simulation_scoring_metrics := None;
     UpdateSimulationRequest.sim_practice := None |}.

Definition polite_prompt : value := VStr "Be polite and concise.".

(** A configured record and a record that was never given an agent. *)
Definition configured_doc : dict :=
  [ ("name", VStr "Refunds"); ("status", VStr "draft"); ("version", VInt 1);
    ("createdBy", VStr "u1"); ("createdOn", VDatetime 10);
    ("llmId", VStr "llm_0"); ("agentId", VStr "agent_0") ].

Definition bare_doc : dict :=
  [ ("name", VStr "Returns"); ("status", VStr "draft"); ("version", VInt 1);
    ("createdBy", VStr "u1"); ("createdOn", VDatetime 11) ].

Definition world : World :=
  {| simulations := <[known_id := configured_doc]> (<[bare_id := bare_doc]> ∅);
     trace := [];
     ticks := 0 |}.

End Sample.

(** ** Process configuration: [config.py] *)

Module Config.

(** [os.environ] once [load_dotenv()] has run. *)
Abbreviation environ := (string -> option string).

(** [os.getenv(name, default)]. *)
Definition getenv (env : environ) (name default : string) : string :=
  match env name with
  | Some v => v
  | None => default
  end.

(** The names the module binds. *)
Record t : Type := {
  MONGO_URI : string;
  DB_NAME : string;
  DEEPGRAM_API_KEY : string;
  RETELL_API_KEY : string;
  AZURE_OPENAI_DEPLOYMENT_NAME : string;
  AZURE_OPENAI_KEY : string;
  AZURE_OPENAI_BASE_URL : string
}.

(** [not s] for a string. *)
Definition empty (s : string) : bool := String.eqb s EmptyString.

(** Importing the module: the assignments, then the validation in the
    order it is written.  Each [raise ValueError(msg)] is kept as its
    message.  [isinstance(DB_NAME, str)] holds of every value [os.getenv]
    returns here. *)
Definition load (env : environ) : outcome t :=
  let MONGO_URI := getenv env "mongo-url" "mongodb://localhost:27017" in
  let DB_NAME := getenv env "db-name" "everai_simulator" in
  let DEEPGRAM_API_KEY :=
    getenv env "DEEPGRAM_API_KEY" "90b109a0bc690efde72b6e9da892d9371885cb8f" in
  let RETELL_API_KEY :=
    getenv env "RETELL_API_KEY" "key_c98334da2d625bae2d5c9a24d33f" in
  let AZURE_OPENAI_DEPLOYMENT_NAME :=
    getenv env "AZURE_OPENAI_DEPLOYMENT_NAME" EmptyString in
  let AZURE_OPENAI_KEY := getenv env "AZURE_OPENAI_KEY" EmptyString in
  let AZURE_OPENAI_BASE_URL := getenv env "AZURE_OPENAI_BASE_URL" EmptyString in
  let DB_NAME_is_str := true in
  if empty MONGO_URI then
    Raised (Exception
      "MongoDB URI not set. Please set 'mongo-url' environment variable.")
  else if negb DB_NAME_is_str then
    Raised (Exception "Database name must be a string")
  else if empty DEEPGRAM_API_KEY then
    Raised (Exception
      "Deepgram API key not set. Please set DEEPGRAM_API_KEY environment variable.")
  else if empty RETELL_API_KEY then
    Raised (Exception
      "Retell API key not set. Please set RETELL_API_KEY environment variable.")
  else if empty AZURE_OPENAI_DEPLOYMENT_NAME then
    Raised (Exception
      "Azure OpenAI deployment name not set. Please set AZURE_OPENAI_DEPLOYMENT_NAME environment variable.")
  else if empty AZURE_OPENAI_KEY then
    Raised (Exception
      "Azure OpenAI key not set. Please set AZURE_OPENAI_KEY environment variable.")
  else if empty AZURE_OPENAI_BASE_URL then
    Raised (Exception
      "Azure OpenAI base URL not set. Please set AZURE_OPENAI_BASE_URL environment variable.")
  else
    Returned {| MONGO_URI := MONGO_URI;
                DB_NAME := DB_NAME;
                DEEPGRAM_API_KEY := DEEPGRAM_API_KEY;
                RETELL_API_KEY := RETELL_API_KEY;
                AZURE_OPENAI_DEPLOYMENT_NAME := AZURE_OPENAI_DEPLOYMENT_NAME;
                AZURE_OPENAI_KEY := AZURE_OPENAI_KEY;
                AZURE_OPENAI_BASE_URL := AZURE_OPENAI_BASE_URL |}.

(** A variable is set to a non-empty value. *)
Definition provided (env : environ) (name : string) : Prop :=
  exists v, env name = Some v /\ v <> EmptyString.

(** A variable is not set to the empty string (it may be unset). *)
Definition not_blank (env : environ) (name : string) : Prop :=
  env name <> Some EmptyString.

(** An environment that sets exactly the listed variables. *)
Definition environ_of (l : list (string * string)) : environ :=
  fun name => assoc name l.

End Config.

(** ** The store handle: [infrastructure/database.py] *)

Module Database.

(** A collection handle: the database it belongs to and its name. *)
Record collection : Type := { database : string; collection_name : string }.

(** A [Database] object, as the attributes set on it. *)
Abbreviation instance := (list (string * collection)).

(** The class: its [_instance] attribute, and the clients constructed so
    far (by connection string). *)
Record class_state : Type := {
  _instance : option instance;
  clients : list string
}.

Definition initial : class_state := {| _instance := None; clients := [] |}.

(** The collections [__new__] initialises on [db = client[db_name]]. *)
Definition collections (db_name : string) : instance :=
  [ ("users", {| database := db_name; collection_name := "users" |});
    ("assignments",
      {| database := db_name; collection_name := "assignments" |});
    ("training_plans",
      {| database := db_name; collection_name := "trainingPlans" |});
    ("modules", {| database := db_name; collection_name := "modules" |});
    ("simulations",
      {| database := db_name; collection_name := "simulations" |});
    ("user_sim_progress",
      {| database := db_name; collection_name := "userSimulationProgress" |});
    ("sim_attempts",
      {| database := db_name; collection_name := "simulationAttempts" |}) ].

(** What the driver refuses: [client_error uri] is the message with
    which [AsyncIOMotorClient(uri)] raises, [database_error name] the
    message with which [client[name]] raises, if they do. *)
Record driver : Type := {
  client_error : string -> option string;
  database_error : string -> option string
}.

(** [Database()], that is [__new__].  The fresh object is bound to
    [_instance] before the client is constructed and before the
    collections are set on it. *)
Definition new (drv : driver) (mongo_uri db_name : string) (cls : class_state)
  : outcome instance * class_state :=
  match _instance cls with
  | None =>
      let cls := {| _instance := Some []; clients := clients cls |} in
      match client_error drv mongo_uri with
      | Some message => (Raised (Exception message), cls)
      | None =>
          let cls := {| _instance := _instance cls;
                        clients := clients cls ++ [mongo_uri] |} in
          match database_error drv db_name with
          | Some message => (Raised (Exception message), cls)
          | None =>
              let obj := collections db_name in
              (Returned obj,
               {| _instance := Some obj; clients := clients cls |})
          end
      end
  | Some obj => (Returned obj, cls)
  end.

(** [obj.<name>]. *)
Definition attribute (obj : instance) (name : string) : outcome collection :=
  match assoc name obj with
  | Some c => Returned c
  | None =>
      Raised (Exception ("'Database' object has no attribute '" +:+ name +:+ "'"))
  end.

(** [n] calls of [Database()] in a row: the outcomes, oldest first, and
    the class afterwards. *)
Fixpoint new_times (drv : driver) (mongo_uri db_name : string) (n : nat)
    (cls : class_state) : list (outcome instance) * class_state :=
  match n with
  | O => ([], cls)
  | S n' =>
      let '(o, cls') := new drv mongo_uri db_name cls in
      let '(os, cls'') := new_times drv mongo_uri db_name n' cls' in
      (o :: os, cls'')
  end.

(** [SimulationService.__init__]: [self.db = Database()]. *)
Definition SimulationService_init (drv : driver) (mongo_uri db_name : string)
    (cls : class_state) : outcome instance * class_state :=
  new drv mongo_uri db_name cls.

(** A driver that accepts everything, and one that refuses one
    connection string. *)
Definition accepting : driver :=
  {| client_error := fun _ => None; database_error := fun _ => None |}.

Definition refusing_uri (uri message : string) : driver :=
  {| client_error := fun u => if String.eqb u uri then Some message else None;
     database_error := fun _ => None |}.

End Database.

(** * The model on concrete inputs *)

Example dict_set_keeps_position :
  dict_set "b" (VInt 2) [("a", VInt 0); ("b", VInt 1)]
  = [("a", VInt 0); ("b", VInt 2)]
  /\ dict_set "c" (VInt 2) [("a", VInt 0); ("b", VInt 1)]
    = [("a", VInt 0); ("b", VInt 1); ("c", VInt 2)].
Proof. split; reflexivity. Qed.

Example getitem_missing_key :
  getitem (VDict [("error", VStr "bad voice")]) (VStr "llm_id")
  = Raised (Exception "'llm_id'").
Proof. reflexivity. Qed.

Example ObjectId_accepts_hex :
  ObjectId "65A1B2C3D4E5F60718293A4B" = Returned Sample.known_id.
Proof. reflexivity. Qed.

Example ObjectId_refuses_short :
  ObjectId "65a1b2c3" = Raised (Exception
    "'65a1b2c3' is not a valid ObjectId, it must be a 12-byte input or a 24-character hex string").
Proof. reflexivity. Qed.

Example ObjectId_skips_white_space_between_bytes :
  ObjectId "65 a1 b2 c3 d4 e5 f6 07 " = Returned "65a1b2c3d4e5f607"
  /\ ObjectId "6 5a1b2c3d4e5f60718293a4" = Raised (Exception
       "'6 5a1b2c3d4e5f60718293a4' is not a valid ObjectId, it must be a 12-byte input or a 24-character hex string").
Proof. split; reflexivity. Qed.

Example py_repr_chooses_the_quote :
  py_repr "it's" = String double_quote ("it's" +:+ String double_quote EmptyString)
  /\ py_repr "a\b" = "'a\\b'".
Proof. split; reflexivity. Qed.

Example str_of_http_exception :
  str (HTTPException 503 "Failed to create Retell LLM")
  = "503: Failed to create Retell LLM".
Proof. reflexivity. Qed.

(** The update scenario of the specification: a prompt and no voice. *)
Example update_with_new_prompt :
  let run := update_simulation Sample.healthy Sample.known_id
               (Sample.update_request VNone Sample.polite_prompt VNone)
               Sample.world in
  fst run = Returned [("id", VStr Sample.known_id); ("status", VStr "success")]
  /\ store_writes (trace (snd run))
     = [ DbUpdateOne Sample.known_id
           [ ("prompt", Sample.polite_prompt);
             ("llmId", VStr "llm_1"); ("agentId", VStr "agent_1");
             ("lastModified", VDatetime 1000);
             ("lastModifiedBy", VStr "u2") ] ].
Proof. split; vm_compute; reflexivity. Qed.

(** An update that changes nothing is reported as a failure. *)
Example update_modified_count_zero :
  let stamped : World :=
    {| simulations :=
         {[ Sample.known_id :=
              [ ("name", VStr "Refunds");
                ("lastModified", VDatetime 1000);
                ("lastModifiedBy", VStr "u2") ] ]};
       trace := [];
       ticks := 0 |} in
  fst (update_simulation Sample.healthy Sample.known_id
         (Sample.update_request VNone VNone VNone) stamped)
  = Raised (HTTPException 500 "Failed to update simulation").
Proof. vm_compute. reflexivity. Qed.

(** A provider refusal during an update reaches the caller unchanged. *)
Example update_with_refused_agent :
  fst (update_simulation Sample.agent_refusing Sample.known_id
         (Sample.update_request VNone Sample.polite_prompt VNone)
         Sample.world)
  = Raised (HTTPException 500
      "Error creating Retell Agent: 422: Failed to create Retell Agent").
Proof. vm_compute. reflexivity. Qed.

(** * Dictionaries *)

Lemma dict_get_set (c k : string) (v : value) (d : dict) :
  dict_get c (dict_set k v d) = if String.eqb c k then Some v else dict_get c d.
Proof.
  induction d as [|[k' v'] d IH]; simpl.
  - destruct (String.eqb c k); reflexivity.
  - destruct (String.eqb_spec k k') as [->|Hkk']; simpl.
    + destruct (String.eqb_spec c k'); reflexivity.
    + rewrite IH. destruct (String.eqb_spec c k') as [->|]; [|reflexivity].
      destruct (String.eqb_spec k' k); [congruence|reflexivity].
Qed.

Lemma dict_get_set_eq (k : string) (v : value) (d : dict) :
  dict_get k (dict_set k v d) = Some v.
Proof. rewrite dict_get_set, String.eqb_refl. reflexivity. Qed.

Lemma dict_get_set_ne (c k : string) (v : value) (d : dict) :
  c <> k -> dict_get c (dict_set k v d) = dict_get c d.
Proof.
  intros Hne. rewrite dict_get_set.
  destruct (String.eqb_spec c k); [contradiction|reflexivity].
Qed.

Lemma dict_get_missing (k : string) (d : dict) :
  k ∉ d.*1 -> dict_get k d = None.
Proof.
  induction d as [|[k' v'] d IH]; simpl; [reflexivity|].
  rewrite not_elem_of_cons. intros [Hne Hnot].
  destruct (String.eqb_spec k k'); [contradiction|]. auto.
Qed.

Lemma dict_set_keys (k : string) (v : value) (d : dict) (x : string) :
  x ∈ (dict_set k v d).*1 -> x = k \/ x ∈ d.*1.
Proof.
  induction d as [|[k' v'] d IH]; simpl.
  - rewrite elem_of_cons, elem_of_nil. tauto.
  - destruct (String.eqb_spec k k') as [->|]; simpl;
      rewrite !elem_of_cons; [tauto|].
    intros [->|H]; [tauto|]. destruct (IH H); tauto.
Qed.

Lemma dict_set_NoDup (k : string) (v : value) (d : dict) :
  NoDup d.*1 -> NoDup (dict_set k v d).*1.
Proof.
  induction d as [|[k' v'] d IH]; simpl.
  - intros _. apply NoDup_singleton.
  - rewrite NoDup_cons. intros [Hnotin Hnd].
    destruct (String.eqb_spec k k') as [->|Hne]; simpl; rewrite NoDup_cons.
    + tauto.
    + split; [|auto]. intros Hin. apply dict_set_keys in Hin.
      destruct Hin; [congruence|contradiction].
Qed.

Lemma dict_get_update (c : string) (upd d : dict) :
  NoDup upd.*1 ->
  dict_get c (dict_update d upd) =
    match dict_get c upd with Some v => Some v | None => dict_get c d end.
Proof.
  unfold dict_update. revert d.
  induction upd as [|[k v] upd IH]; simpl; intros d; [reflexivity|].
  rewrite NoDup_cons. intros [Hnotin Hnd].
  rewrite IH by assumption. rewrite dict_get_set.
  destruct (String.eqb_spec c k) as [->|]; [|reflexivity].
  rewrite (dict_get_missing k upd Hnotin). reflexivity.
Qed.

(** * Strings *)

Lemma prefix_append (n rest : string) : String.prefix n (n +:+ rest) = true.
Proof.
  induction n as [|a n IH]; simpl.
  - destruct rest; reflexivity.
  - destruct (Ascii.ascii_dec a a); [assumption|contradiction].
Qed.

Lemma str_contains_prefix (needle haystack : string) :
  String.prefix needle haystack = true -> str_contains needle haystack = true.
Proof. intros H. destruct haystack; cbn [str_contains]; rewrite H; reflexivity. Qed.

Lemma str_contains_carries (needle haystack : string) :
  carries needle haystack -> str_contains needle haystack = true.
Proof.
  intros (before & after & ->).
  induction before as [|a before IH].
  - change (EmptyString +:+ needle +:+ after) with (needle +:+ after).
    apply str_contains_prefix, prefix_append.
  - change (String a before +:+ needle +:+ after)
      with (String a (before +:+ needle +:+ after)).
    cbn [str_contains]. rewrite IH. apply orb_true_r.
Qed.

Lemma str_join_cons (sep p q : string) (rest : list string) :
  str_join sep (p :: q :: rest) = p +:+ sep +:+ str_join sep (q :: rest).
Proof. reflexivity. Qed.

(** * The name-table loop and the special objects *)

Lemma getattr_known (request : UpdateSimulationRequest.t) (f : string) get :
  assoc f UpdateSimulationRequest.attributes = Some get ->
  getattr request f = Returned (get request).
Proof. intros H. unfold getattr. rewrite H. reflexivity. Qed.

Lemma add_mapped_fields_total (request : UpdateSimulationRequest.t)
    (l : list (string * string)) :
  Forall (fun p => is_Some (assoc p.1 UpdateSimulationRequest.attributes)) l ->
  forall d, exists d', add_mapped_fields request l d = Returned d'.
Proof.
  induction 1 as [|[f c] l [get Hget] _ IH]; intros d; simpl; [eauto|].
  unfold add_if_exists. rewrite (getattr_known _ _ _ Hget).
  destruct (negb _); apply IH.
Qed.

Lemma field_mappings_known :
  Forall (fun p => is_Some (assoc p.1 UpdateSimulationRequest.attributes))
    field_mappings.
Proof. unfold field_mappings. repeat constructor; vm_compute; eauto. Qed.

Lemma add_mapped_fields_ok (request : UpdateSimulationRequest.t) :
  exists d, add_mapped_fields request field_mappings [] = Returned d.
Proof. apply add_mapped_fields_total, field_mappings_known. Qed.

Lemma find_doc_name_None (l : list (string * string)) (c : string) :
  c ∉ l.*2 -> List.find (fun p => String.eqb p.2 c) l = None.
Proof.
  induction l as [|[f c'] l IH]; simpl; [reflexivity|].
  rewrite not_elem_of_cons. intros [Hne Hnot].
  destruct (String.eqb_spec c' c); [congruence|auto].
Qed.

Lemma add_mapped_fields_get (request : UpdateSimulationRequest.t)
    (l : list (string * string)) (c : string) :
  NoDup l.*2 -> Forall (fun p => p.2 <> EmptyString) l ->
  forall d d', add_mapped_fields request l d = Returned d' ->
  dict_get c d' =
    match mapped_value request l c with
    | Some v => Some v
    | None => dict_get c d
    end.
Proof.
  induction l as [|[f cf] l IH]; simpl.
  - intros _ _ d d' [= <-]. reflexivity.
  - rewrite NoDup_cons, Forall_cons. simpl.
    intros [Hnotin Hnd] [Hne Hall] d d'.
    unfold add_if_exists.
    destruct (getattr request f) as [v|e] eqn:Hattr; [|discriminate].
    destruct (String.eqb_spec cf EmptyString) as [|_]; [contradiction|].
    assert (Hhead : mapped_value request ((f, cf) :: l) c =
                    if String.eqb cf c
                    then (if is_None v then None else Some v)
                    else mapped_value request l c).
    { unfold mapped_value. simpl.
      destruct (String.eqb cf c); [rewrite Hattr|]; reflexivity. }
    rewrite Hhead.
    destruct (is_None v) eqn:Hv; simpl; intros Hrest;
      rewrite (IH Hnd Hall _ _ Hrest);
      destruct (String.eqb_spec cf c) as [->|Hcf];
      try (unfold mapped_value at 1;
           rewrite (find_doc_name_None l c Hnotin)); try reflexivity.
    + apply dict_get_set_eq.
    + destruct (mapped_value request l c); [reflexivity|].
      apply dict_get_set_ne. congruence.
Qed.

Lemma add_mapped_fields_NoDup (request : UpdateSimulationRequest.t)
    (l : list (string * string)) :
  forall d d', add_mapped_fields request l d = Returned d' ->
  NoDup d.*1 -> NoDup d'.*1.
Proof.
  induction l as [|[f cf] l IH]; simpl; intros d d'.
  - intros [= <-]. auto.
  - unfold add_if_exists.
    destruct (getattr request f) as [v|e]; [|discriminate].
    destruct (negb (is_None v)); intros Hrest Hnd;
      eapply IH; eauto using dict_set_NoDup.
Qed.

Lemma field_mappings_names :
  NoDup field_mappings.*2 /\ Forall (fun p => p.2 <> EmptyString) field_mappings.
Proof.
  split.
  - apply (bool_decide_unpack _). vm_compute. exact I.
  - unfold field_mappings. repeat constructor; discriminate.
Qed.

Lemma mapped_fields_get (request : UpdateSimulationRequest.t) (d : dict)
    (c : string) :
  add_mapped_fields request field_mappings [] = Returned d ->
  dict_get c d = mapped_value request field_mappings c.
Proof.
  intros H. destruct field_mappings_names as [Hnd Hne].
  rewrite (add_mapped_fields_get request _ c Hnd Hne _ _ H).
  destruct (mapped_value _ _ _); reflexivity.
Qed.

Lemma mapped_fields_NoDup (request : UpdateSimulationRequest.t) (d : dict) :
  add_mapped_fields request field_mappings [] = Returned d -> NoDup d.*1.
Proof. intros H. eapply add_mapped_fields_NoDup; eauto. constructor. Qed.

Lemma add_special_objects_get (request : UpdateSimulationRequest.t)
    (d : dict) (c : string) :
  dict_get c (add_special_objects request d) =
    match special_value request c with
    | Some v => Some v
    | None => dict_get c d
    end.
Proof.
  unfold add_special_objects, special_value.
  destruct (UpdateSimulationRequest.script request),
    (UpdateSimulationRequest.lvl1 request),
    (UpdateSimulationRequest.lvl2 request),
    (UpdateSimulationRequest.lvl3 request),
    (UpdateSimulationRequest.simulation_scoring_metrics request),
    (UpdateSimulationRequest.sim_practice request);
    rewrite ?dict_get_set;
    repeat match goal with
      | |- context [String.eqb c ?k] =>
          destruct (String.eqb_spec c k); [subst c; reflexivity|]
      end; reflexivity.
Qed.

Lemma add_special_objects_NoDup (request : UpdateSimulationRequest.t)
    (d : dict) :
  NoDup d.*1 -> NoDup (add_special_objects request d).*1.
Proof.
  intros H. unfold add_special_objects.
  destruct (UpdateSimulationRequest.script request),
    (UpdateSimulationRequest.lvl1 request),
    (UpdateSimulationRequest.lvl2 request),
    (UpdateSimulationRequest.lvl3 request),
    (UpdateSimulationRequest.simulation_scoring_metrics request),
    (UpdateSimulationRequest.sim_practice request);
    repeat apply dict_set_NoDup; assumption.
Qed.

(** * Symbolic execution of the service *)

(** [reduce_service] unfolds the service operations and the monad and
    reduces what the reached constructors allow; [case_step] splits on the
    innermost undetermined scrutinee, reusing an equation of the context
    when one speaks about it; [exec] alternates the two until every path
    of the operation is a value. *)
Ltac reduce_service :=
  cbv beta iota zeta delta
    [ update_simulation start_audio_simulation_preview create_simulation
      provision_llm_and_agent _create_retell_llm _create_retell_agent
      _create_web_call _generate_simulation_prompt
      post print utcnow insert_one find_one update_one
      bind ret raise lift try_except log set_simulations get_simulations
      add_event tick with_simulations fst snd not_found negb ];
  cbn [ simulations trace ticks
        UpdateResult.modified_count UpdateResult.matched_count ];
  change ((1 =? 0)%Z) with false;
  change ((0 =? 0)%Z) with true;
  cbv beta iota.

Ltac case_step :=
  match goal with
  | H : ?x = _ |- context [match ?x with _ => _ end] => rewrite H
  | |- context [match ?x with _ => _ end] =>
      lazymatch x with
      | context [match _ with _ => _ end] => fail
      | _ => destruct x eqn:?
      end
  end.

Ltac exec := reduce_service; repeat (case_step; reduce_service).

Lemma ObjectId_raises (s : string) (e : exn) :
  ObjectId s = Raised e -> exists m, e = Exception m.
Proof.
  unfold ObjectId. destruct (_ =? _)%nat; [destruct (fromhex s)|];
    intros [= <-]; eauto.
Qed.

Lemma provider_calls_app (t u : list event) :
  provider_calls (t ++ u) = provider_calls t ++ provider_calls u.
Proof. apply List.filter_app. Qed.

Lemma store_writes_app (t u : list event) :
  store_writes (t ++ u) = store_writes t ++ store_writes u.
Proof. apply List.filter_app. Qed.

Ltac simpl_traces :=
  cbn [trace simulations ticks fst snd];
  rewrite ?provider_calls_app, ?store_writes_app;
  cbn [provider_calls store_writes List.filter is_provider_call is_store_write];
  rewrite ?app_nil_r, <- ?app_assoc; cbn [app].

Lemma other_status_is_not_not_found {A} (c : Z) (d : string) :
  c <> 404 -> ~ is_not_found (@Raised A (HTTPException c d)).
Proof. intros Hc [d' [= ? ?]]. contradiction. Qed.

Lemma malformed_identifier_run
    (env : Env) (sim_id : string) (request : UpdateSimulationRequest.t)
    (user_id : value) (w : World) (e : exn) :
  ObjectId sim_id = Raised e ->
  update_simulation env sim_id request w =
    (Raised (HTTPException 500 ("Error updating simulation: " +:+ str e)), w)
  /\ start_audio_simulation_preview env sim_id user_id w =
    (Raised (HTTPException 500
               ("Error starting audio simulation preview: " +:+ str e)), w).
Proof.
  intros H. destruct (ObjectId_raises _ _ H) as [m ->].
  split; exec; reflexivity.
Qed.

(** C10.  An identifier string that [ObjectId] refuses makes both
    [update_simulation] and [start_audio_simulation_preview] fail with the
    generic 500 failure, whose message is the operation's prefix followed
    by the conversion error, and not with the not-found condition.  The
    world is returned untouched: the conversion comes before the store
    lookup, so not even a [find_one] is observed. *)
Theorem invalid_identifier_is_generic_failure
    (env : Env) (sim_id : string) (request : UpdateSimulationRequest.t)
    (user_id : value) (w : World) (e : exn) :
  ObjectId sim_id = Raised e ->
  update_simulation env sim_id request w =
    (Raised (HTTPException 500 ("Error updating simulation: " +:+ str e)), w)
  /\ start_audio_simulation_preview env sim_id user_id w =
    (Raised (HTTPException 500
               ("Error starting audio simulation preview: " +:+ str e)), w)
  /\ ~ is_not_found (fst (update_simulation env sim_id request w))
  /\ ~ is_not_found (fst (start_audio_simulation_preview env sim_id user_id w)).
Proof.
  intros H.
  destruct (malformed_identifier_run env sim_id request user_id w e H)
    as [Hu Hp].
  rewrite Hu, Hp. cbn [fst].
  repeat split; apply other_status_is_not_not_found; discriminate.
Qed.

Lemma invalid_identifier_is_generic_failure_witness :
  ObjectId "abc" = Raised (Exception
    "'abc' is not a valid ObjectId, it must be a 12-byte input or a 24-character hex string")
  /\ fst (update_simulation Sample.healthy "abc"
            (Sample.update_request VNone Sample.polite_prompt VNone)
            Sample.world) =
     Raised (HTTPException 500
       "Error updating simulation: 'abc' is not a valid ObjectId, it must be a 12-byte input or a 24-character hex string").
Proof.
  split; [reflexivity|].
  rewrite (proj1 (invalid_identifier_is_generic_failure Sample.healthy "abc"
             (Sample.update_request VNone Sample.polite_prompt VNone) VNone
             Sample.world _ eq_refl)).
  reflexivity.
Defined.

(** C6.  Previewing an existing record that has no [agentId] fails with
    status 400 and the detail "Simulation does not have an agent
    configured", which is not the not-found condition, and adds no provider
    call to the trace. *)
Theorem preview_requires_agent
    (env : Env) (sim_id : string) (user_id : value) (w : World) (doc : dict) :
  resolve w sim_id = Some doc ->
  dict_get "agentId" doc = None ->
  fst (start_audio_simulation_preview env sim_id user_id w) =
    Raised (HTTPException 400 "Simulation does not have an agent configured")
  /\ ~ is_not_found (fst (start_audio_simulation_preview env sim_id user_id w))
  /\ provider_calls (trace (snd (start_audio_simulation_preview env sim_id user_id w)))
     = provider_calls (trace w).
Proof.
  unfold resolve. intros Hres Hagent.
  destruct (ObjectId sim_id) as [oid|] eqn:Hoid; [|discriminate].
  assert (Hrun : start_audio_simulation_preview env sim_id user_id w =
    (Raised (HTTPException 400 "Simulation does not have an agent configured"),
     add_event (DbFindOne oid) w)).
  { assert (Ht : truthy (dict_get_or_none "agentId"
                           (("_id", VObjectId oid) :: doc)) = false).
    { unfold dict_get_or_none. change (dict_get "agentId" (("_id", VObjectId oid) :: doc))
        with (dict_get "agentId" doc). rewrite Hagent. reflexivity. }
    exec. reflexivity. }
  rewrite Hrun. simpl. split; [reflexivity|]. split.
  - apply other_status_is_not_not_found. discriminate.
  - simpl_traces. reflexivity.
Qed.

Lemma preview_requires_agent_witness :
  resolve Sample.world Sample.bare_id = Some Sample.bare_doc
  /\ fst (start_audio_simulation_preview Sample.healthy Sample.bare_id
            (VStr "u1") Sample.world) =
     Raised (HTTPException 400 "Simulation does not have an agent configured").
Proof.
  assert (H : resolve Sample.world Sample.bare_id = Some Sample.bare_doc)
    by (vm_compute; reflexivity).
  split; [exact H|].
  apply (preview_requires_agent Sample.healthy Sample.bare_id (VStr "u1")
           Sample.world Sample.bare_doc H).
  reflexivity.
Defined.

(** C5, as worded, fails on a malformed identifier: the string "abc"
    resolves to no record, yet neither operation reports not-found (both
    report the generic 500 failure). *)
Lemma malformed_identifier_is_not_reported_not_found :
  resolve Sample.world "abc" = None
  /\ ~ is_not_found
       (fst (update_simulation Sample.healthy "abc"
               (Sample.update_request VNone Sample.polite_prompt VNone)
               Sample.world))
  /\ ~ is_not_found
       (fst (start_audio_simulation_preview Sample.healthy "abc" (VStr "u1")
               Sample.world)).
Proof.
  split; [reflexivity|].
  split; intros [detail H]; vm_compute in H; discriminate H.
Qed.

Theorem missing_record_is_not_found_before_any_provider_call
    (env : Env) (sim_id : string) (request : UpdateSimulationRequest.t)
    (user_id : value) (w : World) :
  resolve w sim_id = None ->
  provider_calls (trace (snd (update_simulation env sim_id request w)))
    = provider_calls (trace w)
  /\ provider_calls
       (trace (snd (start_audio_simulation_preview env sim_id user_id w)))
    = provider_calls (trace w)
  /\ (forall oid, ObjectId sim_id = Returned oid ->
        fst (update_simulation env sim_id request w) =
          Raised (HTTPException 404
                    ("Simulation with id " +:+ sim_id +:+ " not found"))
        /\ fst (start_audio_simulation_preview env sim_id user_id w) =
          Raised (HTTPException 404
                    ("Simulation with id " +:+ sim_id +:+ " not found"))).
Proof.
  unfold resolve. intros Hres.
  destruct (ObjectId sim_id) as [oid|e] eqn:Hoid.
  - assert (Hu : update_simulation env sim_id request w =
      (Raised (HTTPException 404
                 ("Simulation with id " +:+ sim_id +:+ " not found")),
       add_event (DbFindOne oid) w)) by (exec; reflexivity).
    assert (Hp : start_audio_simulation_preview env sim_id user_id w =
      (Raised (HTTPException 404
                 ("Simulation with id " +:+ sim_id +:+ " not found")),
       add_event (DbFindOne oid) w)) by (exec; reflexivity).
    rewrite Hu, Hp. cbn [fst snd add_event trace]. simpl_traces.
    repeat split; reflexivity.
  - destruct (malformed_identifier_run env sim_id request user_id w e Hoid)
      as (Hu & Hp).
    rewrite Hu, Hp. cbn [fst snd].
    repeat split; discriminate.
Qed.

Lemma missing_record_is_not_found_before_any_provider_call_witness :
  resolve Sample.world Sample.fresh_id = None
  /\ fst (update_simulation Sample.healthy Sample.fresh_id
            (Sample.update_request VNone Sample.polite_prompt VNone)
            Sample.world) =
     Raised (HTTPException 404
       "Simulation with id 65a1b2c3d4e5f60718293a4c not found")
  /\ provider_calls
       (trace (snd (update_simulation Sample.healthy Sample.fresh_id
                      (Sample.update_request VNone Sample.polite_prompt VNone)
                      Sample.world))) = [].
Proof.
  assert (H : resolve Sample.world Sample.fresh_id = None)
    by (vm_compute; reflexivity).
  destruct (missing_record_is_not_found_before_any_provider_call
              Sample.healthy Sample.fresh_id
              (Sample.update_request VNone Sample.polite_prompt VNone)
              (VStr "u1") Sample.world H) as (Hcalls & _ & Hfound).
  split; [exact H|]. split.
  - exact (proj1 (Hfound Sample.fresh_id eq_refl)).
  - exact Hcalls.
Defined.





Example refund_transcript :
  str_join newline (map transcript_line Sample.refund_script)
  = "agent: Hello, how can I help?" +:+ newline +:+ "customer: I need a refund.".
Proof. reflexivity. Qed.

(** C8.  When [create_simulation] succeeds, exactly one document was
    inserted, under a fresh identifier; it has status "draft", version 1,
    [createdBy] and [lastModifiedBy] equal to the requesting user, the
    generated prompt, and neither [llmId] nor [agentId]; the returned value
    is the new identifier, the "success" indicator and that prompt. *)
Theorem created_document_shape
    (env : Env) (request : CreateSimulationRequest.t) (w w' : World)
    (result : dict) :
  create_simulation env request w = (Returned result, w') ->
  exists oid prompt doc,
    result = [("id", VStr oid); ("status", VStr "success"); ("prompt", prompt)]
    /\ fst (_generate_simulation_prompt env
              (CreateSimulationRequest.script request) w) = Returned prompt
    /\ simulations w !! oid = None
    /\ simulations w' = <[oid := doc]> (simulations w)
    /\ store_writes (trace w') = store_writes (trace w) ++ [DbInsertOne doc]
    /\ dict_get "status" doc = Some (VStr "draft")
    /\ dict_get "version" doc = Some (VInt 1)
    /\ dict_get "createdBy" doc = Some (CreateSimulationRequest.user_id request)
    /\ dict_get "lastModifiedBy" doc
       = Some (CreateSimulationRequest.user_id request)
    /\ dict_get "prompt" doc = Some prompt
    /\ dict_get "llmId" doc = None
    /\ dict_get "agentId" doc = None.
Proof.
  exec; intros [= <- <-].
  eexists _, _, _. cbn [simulations trace].
  repeat split; try reflexivity; try eassumption.
  simpl_traces. reflexivity.
Qed.

Lemma created_document_shape_witness :
  let run :=
    create_simulation Sample.healthy Sample.create_request Sample.world in
  fst run = Returned [ ("id", VStr Sample.fresh_id); ("status", VStr "success");
                       ("prompt", VStr "Act as a customer.") ]
  /\ exists oid prompt doc,
       simulations (snd run) = <[oid := doc]> (simulations Sample.world)
       /\ dict_get "status" doc = Some (VStr "draft")
       /\ dict_get "version" doc = Some (VInt 1)
       /\ dict_get "prompt" doc = Some prompt
       /\ dict_get "llmId" doc = None
       /\ dict_get "agentId" doc = None.
Proof.
  intros run.
  assert (Hrun : run =
    (Returned [ ("id", VStr Sample.fresh_id); ("status", VStr "success");
                ("prompt", VStr "Act as a customer.") ], snd run))
    by (vm_compute; reflexivity).
  split; [rewrite Hrun; reflexivity|].
  destruct (created_document_shape _ _ _ _ _ Hrun)
    as (oid & prompt & doc & _ & _ & _ & Hsims & _ & Hst & Hv & _ & _ & Hp
        & Hl & Ha).
  exists oid, prompt, doc. repeat split; assumption.
Defined.

(** * Provider failures *)

(** A non-success status reaches the caller of each of these three
    clients inside the failure message. *)
Lemma create_llm_failure_carries_status
    (env : Env) (prompt : value) (w : World) (response : ClientResponse.t) :
  session_post env create_llm_url (bearer_headers (RETELL_API_KEY env))
    (llm_body prompt) = Returned response ->
  ClientResponse.status response <> 201 ->
  exists detail,
    fst (_create_retell_llm env prompt w) = Raised (HTTPException 500 detail)
    /\ carries (pretty (ClientResponse.status response)) detail.
Proof.
  intros Hpost Hstatus. apply Z.eqb_neq in Hstatus.
  unfold llm_body in Hpost.
  eexists. split; [exec; reflexivity|].
  exists "Error creating Retell LLM: ", ": Failed to create Retell LLM".
  reflexivity.
Qed.

Lemma create_agent_failure_carries_status
    (env : Env) (llm_id voice_id : value) (w : World)
    (response : ClientResponse.t) :
  session_post env create_agent_url (bearer_headers (RETELL_API_KEY env))
    (agent_body llm_id voice_id) = Returned response ->
  ClientResponse.status response <> 201 ->
  exists detail,
    fst (_create_retell_agent env llm_id voice_id w)
      = Raised (HTTPException 500 detail)
    /\ carries (pretty (ClientResponse.status response)) detail.
Proof.
  intros Hpost Hstatus. apply Z.eqb_neq in Hstatus.
  unfold agent_body in Hpost.
  eexists. split; [exec; reflexivity|].
  exists "Error creating Retell Agent: ", ": Failed to create Retell Agent".
  reflexivity.
Qed.

Lemma text_generation_failure_carries_status
    (env : Env) (script : list ScriptLine.t) (w : World)
    (response : ClientResponse.t) :
  session_post env openai_url (bearer_headers (OPENAI_API_KEY env))
    (chat_body (str_join newline (map transcript_line script)))
    = Returned response ->
  ClientResponse.status response <> 200 ->
  exists detail,
    fst (_generate_simulation_prompt env script w)
      = Raised (HTTPException 500 detail)
    /\ carries (pretty (ClientResponse.status response)) detail.
Proof.
  intros Hpost Hstatus. apply Z.eqb_neq in Hstatus.
  unfold chat_body in Hpost.
  eexists. split; [exec; reflexivity|].
  exists "Error generating simulation prompt: ",
    (": " +:+ ClientResponse.repr response).
  reflexivity.
Qed.

Lemma web_call_failure_carries_status_when_body_parses
    (env : Env) (agent_id : value) (w : World) (response : ClientResponse.t)
    (body : value) :
  session_post env create_web_call_url (bearer_headers (RETELL_API_KEY env))
    (VDict [("agent_id", agent_id)]) = Returned response ->
  ClientResponse.json response = Returned body ->
  ClientResponse.status response <> 201 ->
  exists detail,
    fst (_create_web_call env agent_id w) = Raised (HTTPException 500 detail)
    /\ carries (pretty (ClientResponse.status response)) detail.
Proof.
  intros Hpost Hjson Hstatus. apply Z.eqb_neq in Hstatus.
  eexists. split; [exec; reflexivity|].
  exists "Error creating web call: ", ": Failed to create web call".
  reflexivity.
Qed.

(** C9.  The web-call client at a response whose body does not parse:
    the body is read (for the console) before the status is looked at, so
    the failure that reaches the caller is the parse error under the
    client's prefix, whatever the provider's status was.  The status is
    lost, unlike in the three sibling clients above. *)
Theorem web_call_failure_loses_status
    (env : Env) (agent_id : value) (w : World) (response : ClientResponse.t)
    (message : string) :
  session_post env create_web_call_url (bearer_headers (RETELL_API_KEY env))
    (VDict [("agent_id", agent_id)]) = Returned response ->
  ClientResponse.json response = Raised (Exception message) ->
  _create_web_call env agent_id w =
    (Raised (HTTPException 500 ("Error creating web call: " +:+ message)),
     add_event (HttpPost create_web_call_url
                  (bearer_headers (RETELL_API_KEY env))
                  (VDict [("agent_id", agent_id)])) w).
Proof. intros Hpost Hjson. exec. reflexivity. Qed.

Lemma web_call_failure_loses_status_witness :
  let response := Sample.unparsable_response 503 in
  ClientResponse.status response = 503
  /\ fst (_create_web_call (Sample.unparsable 503) (VStr "agent_0") Sample.world)
     = Raised (HTTPException 500
         "Error creating web call: Expecting value: line 1 column 1 (char 0)")
  /\ ~ carries (pretty (ClientResponse.status response))
        "Error creating web call: Expecting value: line 1 column 1 (char 0)".
Proof.
  intros response. split; [reflexivity|]. split.
  - rewrite (web_call_failure_loses_status (Sample.unparsable 503)
               (VStr "agent_0") Sample.world response
               "Expecting value: line 1 column 1 (char 0)" eq_refl eq_refl).
    reflexivity.
  - intros H. apply str_contains_carries in H. vm_compute in H. discriminate H.
Defined.

(** * Update: what reaches the store *)

Lemma failed_Raised {A} (e : exn) : failed (@Raised A e).
Proof. exists e. reflexivity. Qed.

Lemma not_failed_Returned {A} (a : A) : ~ failed (Returned a).
Proof. intros [e [=]]. Qed.

Lemma provision_failure_independent
    (env : Env) (request : UpdateSimulationRequest.t) (d d' : dict)
    (w w' : World) :
  failed (fst (provision_llm_and_agent env request d w)) ->
  failed (fst (provision_llm_and_agent env request d' w')).
Proof.
  exec; intros H; try (apply not_failed_Returned in H; contradiction);
    apply failed_Raised.
Qed.

(** C4.  No store write on failure.  Create: when prompt generation
    fails, creation fails and the trace gains no store write; any failed
    creation leaves the collection as it was.  Update: when provisioning
    (LLM, then agent) fails, the update fails and the trace gains no store
    write; any failed update leaves the collection as it was. *)
Theorem no_store_write_on_failure
    (env : Env) (create_request : CreateSimulationRequest.t)
    (sim_id : string) (update_request : UpdateSimulationRequest.t)
    (w : World) :
  (failed (fst (_generate_simulation_prompt env
                  (CreateSimulationRequest.script create_request) w)) ->
     failed (fst (create_simulation env create_request w))
     /\ store_writes (trace (snd (create_simulation env create_request w)))
        = store_writes (trace w)
     /\ simulations (snd (create_simulation env create_request w))
        = simulations w)
  /\ (failed (fst (create_simulation env create_request w)) ->
        simulations (snd (create_simulation env create_request w))
        = simulations w)
  /\ (forall d w1,
        failed (fst (provision_llm_and_agent env update_request d w1)) ->
        failed (fst (update_simulation env sim_id update_request w))
        /\ store_writes
             (trace (snd (update_simulation env sim_id update_request w)))
           = store_writes (trace w)
        /\ simulations (snd (update_simulation env sim_id update_request w))
           = simulations w)
  /\ (failed (fst (update_simulation env sim_id update_request w)) ->
        simulations (snd (update_simulation env sim_id update_request w))
        = simulations w).
Proof.
  split; [|split; [|split]].
  - exec; intros H; try (apply not_failed_Returned in H; contradiction);
      (split; [apply failed_Raised
              | split; [simpl_traces; reflexivity | reflexivity]]).
  - exec; intros H; try (apply not_failed_Returned in H; contradiction);
      reflexivity.
  - intros d w1 H.
    destruct (add_mapped_fields_ok update_request) as [d0 Hd0].
    pose proof (fun w' =>
      provision_failure_independent env update_request d
        (add_special_objects update_request d0) w1 w' H) as H'.
    clear H.
    exec;
      try (split; [apply failed_Raised
                  | split; [simpl_traces; reflexivity | reflexivity]]);
      exfalso;
      match goal with
      | Hs : simulations w !! ?oid = Some _ |- _ =>
          specialize (H' (add_event (DbFindOne oid) w))
      end;
      revert H'; exec; apply not_failed_Returned.
  - exec; intros H; try (apply not_failed_Returned in H; contradiction);
      reflexivity.
Qed.

Lemma no_store_write_on_failure_witness :
  failed (fst (create_simulation (Sample.failing 429) Sample.create_request
                 Sample.world))
  /\ simulations (snd (create_simulation (Sample.failing 429)
                         Sample.create_request Sample.world))
     = simulations Sample.world
  /\ failed (fst (update_simulation Sample.agent_refusing Sample.known_id
                    (Sample.update_request VNone Sample.polite_prompt VNone)
                    Sample.world))
  /\ store_writes
       (trace (snd (update_simulation Sample.agent_refusing Sample.known_id
                      (Sample.update_request VNone Sample.polite_prompt VNone)
                      Sample.world))) = []
  /\ simulations (snd (update_simulation Sample.agent_refusing Sample.known_id
                         (Sample.update_request VNone Sample.polite_prompt VNone)
                         Sample.world))
     = simulations Sample.world.
Proof.
  destruct (no_store_write_on_failure (Sample.failing 429)
              Sample.create_request Sample.known_id
              (Sample.update_request VNone Sample.polite_prompt VNone)
              Sample.world) as (Hgen & Hcreate & _ & _).
  destruct (no_store_write_on_failure Sample.agent_refusing
              Sample.create_request Sample.known_id
              (Sample.update_request VNone Sample.polite_prompt VNone)
              Sample.world) as (_ & _ & Hprov & Hupdate).
  assert (Hg : failed (fst (_generate_simulation_prompt (Sample.failing 429)
                 (CreateSimulationRequest.script Sample.create_request)
                 Sample.world)))
    by (eexists; vm_compute; reflexivity).
  assert (Hp : failed (fst (provision_llm_and_agent Sample.agent_refusing
                 (Sample.update_request VNone Sample.polite_prompt VNone)
                 [] Sample.world)))
    by (eexists; vm_compute; reflexivity).
  destruct (Hgen Hg) as (Hc & _ & _).
  destruct (Hprov [] Sample.world Hp) as (Hu & Hw & _).
  exact (conj Hc (conj (Hcreate Hc) (conj Hu (conj Hw (Hupdate Hu))))).
Defined.

Lemma staged_get (request : UpdateSimulationRequest.t) (d0 : dict)
    (c : string) :
  add_mapped_fields request field_mappings [] = Returned d0 ->
  dict_get c (add_special_objects request d0) =
    match special_value request c with
    | Some v => Some v
    | None => mapped_value request field_mappings c
    end.
Proof.
  intros H. rewrite add_special_objects_get, (mapped_fields_get _ _ _ H).
  reflexivity.
Qed.

Lemma staged_NoDup (request : UpdateSimulationRequest.t) (d0 : dict) :
  add_mapped_fields request field_mappings [] = Returned d0 ->
  NoDup (add_special_objects request d0).*1.
Proof.
  intros H. apply add_special_objects_NoDup. eapply mapped_fields_NoDup, H.
Qed.

Lemma stored_field_insert (w w' : World) (oid : string) (old upd : dict)
    (c : string) :
  simulations w !! oid = Some old ->
  simulations w' = <[oid := dict_update old upd]> (simulations w) ->
  NoDup upd.*1 ->
  stored_field w' oid c =
    match dict_get c upd with
    | Some v => Some v
    | None => stored_field w oid c
    end.
Proof.
  intros Hold Hnew Hnd. unfold stored_field.
  rewrite Hnew, lookup_insert_eq, Hold. apply dict_get_update, Hnd.
Qed.

Lemma stored_field_insert_other (w w' : World) (oid oid' : string)
    (doc : dict) (c : string) :
  simulations w' = <[oid := doc]> (simulations w) ->
  oid <> oid' ->
  stored_field w' oid' c = stored_field w oid' c.
Proof.
  intros Hnew Hne. unfold stored_field.
  rewrite Hnew, lookup_insert_ne by assumption. reflexivity.
Qed.




(** * Update: partial-update isolation *)

Lemma absent_not_staged (request : UpdateSimulationRequest.t) (f c : string) :
  (f, c) ∈ request_document_fields ->
  absent request f = true ->
  mapped_value request field_mappings c = None
  /\ special_value request c = None
  /\ c <> "lastModifiedBy" /\ c <> "lastModified"
  /\ c <> "agentId" /\ c <> "llmId".
Proof.
  unfold request_document_fields, field_mappings. cbn [app].
  intros Hin.
  repeat (apply elem_of_cons in Hin as [[= -> ->]|Hin]);
    [ .. | apply elem_of_nil in Hin; contradiction ];
    cbv [absent assoc UpdateSimulationRequest.attributes option_is_none];
    cbn [String.eqb Ascii.eqb Bool.eqb];
    intros Habs;
    (split; [|split; [|repeat split; discriminate]]).
  all: cbv [mapped_value special_value field_mappings List.find snd getattr
            assoc UpdateSimulationRequest.attributes];
    cbn [String.eqb Ascii.eqb Bool.eqb];
    try rewrite Habs; try reflexivity.
  all: match goal with
       | H : match ?x with _ => _ end = true |- _ =>
           destruct x; [discriminate H|reflexivity]
       end.
Qed.

Lemma absent_not_in_update_set
    (request : UpdateSimulationRequest.t) (d0 : dict) (f c : string)
    (u : dict) :
  add_mapped_fields request field_mappings [] = Returned d0 ->
  (f, c) ∈ request_document_fields ->
  absent request f = true ->
  (forall k, k <> "lastModifiedBy" -> k <> "lastModified" ->
             k <> "agentId" -> k <> "llmId" ->
             dict_get k u = dict_get k (add_special_objects request d0)) ->
  dict_get c u = None.
Proof.
  intros Hm Hin Habs Hu.
  destruct (absent_not_staged request f c Hin Habs)
    as (Hmv & Hsv & H1 & H2 & H3 & H4).
  rewrite (Hu c H1 H2 H3 H4), (staged_get _ _ _ Hm), Hsv, Hmv. reflexivity.
Qed.

(** C3.  Partial-update isolation.  Whatever the outcome of an update,
    every stored field whose request attribute is absent is unchanged, in
    every record.  Every [$set] the update issues carries [lastModified]
    (the clock reading) and [lastModifiedBy] (the request's user) and
    carries neither [createdBy] nor [createdOn]; a successful update
    issues one. *)
Theorem partial_update_isolation
    (env : Env) (sim_id : string) (request : UpdateSimulationRequest.t)
    (w : World) :
  let run := update_simulation env sim_id request w in
  (forall oid f c,
      (f, c) ∈ request_document_fields -> absent request f = true ->
      stored_field (snd run) oid c = stored_field w oid c)
  /\ exists events,
       trace (snd run) = trace w ++ events
       /\ (forall oid set_doc, DbUpdateOne oid set_doc ∈ events ->
             dict_get "lastModified" set_doc
               = Some (VDatetime (clock env (ticks w)))
             /\ dict_get "lastModifiedBy" set_doc
               = Some (UpdateSimulationRequest.user_id request)
             /\ dict_get "createdBy" set_doc = None
             /\ dict_get "createdOn" set_doc = None)
       /\ (forall result, fst run = Returned result ->
             exists oid set_doc, DbUpdateOne oid set_doc ∈ events).
Proof.
  intros run. subst run. split.
  - intros oid f c Hin Habs.
    exec; try reflexivity;
      match goal with
      | Hm : add_mapped_fields _ _ _ = Returned ?d0,
        Hs : simulations w !! ?a = Some ?old |- _ =>
          destruct (decide (a = oid)) as [<-|Hne];
            [ erewrite stored_field_insert;
              [ | exact Hs | reflexivity
                | repeat apply dict_set_NoDup; exact (staged_NoDup _ _ Hm) ];
              erewrite (absent_not_in_update_set request d0 f c _ Hm Hin Habs);
              [ reflexivity
              | intros k ? ? ? ?; rewrite !dict_get_set_ne by assumption;
                reflexivity ]
            | eapply stored_field_insert_other; [reflexivity|exact Hne] ]
      end.
  - destruct (add_mapped_fields_ok request) as [d0 Hd0].
    pose proof (staged_get request d0 "createdBy" Hd0) as Hcb.
    pose proof (staged_get request d0 "createdOn" Hd0) as Hco.
    change (dict_get "createdBy" (add_special_objects request d0) = None) in Hcb.
    change (dict_get "createdOn" (add_special_objects request d0) = None) in Hco.
    exec; cbn [trace];
      (first [ exists []; split; [symmetry; apply app_nil_r|]
             | eexists; split; [rewrite <- ?app_assoc; reflexivity|] ]);
      cbn [app]; split;
      try (intros ? [=]);
      try (intros oid set_doc Hin;
           repeat (apply elem_of_cons in Hin as [Hin|Hin]; try discriminate Hin);
           try (apply elem_of_nil in Hin; contradiction);
           injection Hin as -> ->;
           repeat split;
           rewrite ?dict_get_set_eq; try reflexivity;
           rewrite !dict_get_set_ne by discriminate;
           rewrite ?dict_get_set_eq; first [reflexivity|assumption]).
    all: eexists _, _; rewrite !elem_of_cons; eauto 6.
Qed.

Lemma partial_update_isolation_witness :
  let request := Sample.update_request (VStr "Renamed") VNone VNone in
  let run := update_simulation Sample.healthy Sample.known_id request
               Sample.world in
  absent request "status" = true
  /\ stored_field (snd run) Sample.known_id "status" = Some (VStr "draft")
  /\ stored_field (snd run) Sample.known_id "name" = Some (VStr "Renamed")
  /\ stored_field (snd run) Sample.known_id "lastModifiedBy" = Some (VStr "u2").
Proof.
  intros request run. subst run.
  assert (Habs : absent request "status" = true) by reflexivity.
  assert (Hin : ("status", "status") ∈ request_document_fields)
    by (apply (bool_decide_unpack _); vm_compute; exact I).
  destruct (partial_update_isolation Sample.healthy Sample.known_id request
              Sample.world) as [Hframe _].
  split; [exact Habs|]. split.
  - rewrite (Hframe Sample.known_id "status" "status" Hin Habs).
    vm_compute. reflexivity.
  - split; vm_compute; reflexivity.
Defined.

(** * Update: provisioning *)

Lemma update_posts_llm_first
    (env : Env) (sim_id : string) (request : UpdateSimulationRequest.t)
    (w : World) (oid : string) (old : dict) :
  ObjectId sim_id = Returned oid ->
  simulations w !! oid = Some old ->
  is_None (UpdateSimulationRequest.prompt request) = false ->
  exists rest,
    trace (snd (update_simulation env sim_id request w)) =
      trace w ++ DbFindOne oid
        :: HttpPost create_llm_url (bearer_headers (RETELL_API_KEY env))
             (llm_body (UpdateSimulationRequest.prompt request))
        :: rest.
Proof.
  intros Hoid Hold Hprompt.
  destruct (add_mapped_fields_ok request) as [d0 Hd0].
  exec; cbn [trace]; rewrite <- ?app_assoc; cbn [app];
    eexists; reflexivity.
Qed.

Lemma update_posts_agent_second
    (env : Env) (sim_id : string) (request : UpdateSimulationRequest.t)
    (w : World) (oid : string) (old : dict) (llm_response llm_id : value) :
  ObjectId sim_id = Returned oid ->
  simulations w !! oid = Some old ->
  is_None (UpdateSimulationRequest.prompt request) = false ->
  answers env create_llm_url (RETELL_API_KEY env)
    (llm_body (UpdateSimulationRequest.prompt request)) 201 llm_response ->
  getitem llm_response (VStr "llm_id") = Returned llm_id ->
  exists rest,
    trace (snd (update_simulation env sim_id request w)) =
      trace w ++ DbFindOne oid
        :: HttpPost create_llm_url (bearer_headers (RETELL_API_KEY env))
             (llm_body (UpdateSimulationRequest.prompt request))
        :: HttpPost create_agent_url (bearer_headers (RETELL_API_KEY env))
             (agent_body llm_id
                (py_or (UpdateSimulationRequest.voice_id request)
                       (VStr "11labs-Adrian")))
        :: rest.
Proof.
  intros Hoid Hold Hprompt (r & Hpost & Hst & Hjson) Hget.
  apply Z.eqb_eq in Hst. unfold llm_body in Hpost.
  destruct (add_mapped_fields_ok request) as [d0 Hd0].
  exec; cbn [trace]; rewrite <- ?app_assoc; cbn [app];
    eexists; reflexivity.
Qed.

Lemma update_stages_both_identifiers
    (env : Env) (sim_id : string) (request : UpdateSimulationRequest.t)
    (w : World) (oid : string) (old : dict)
    (llm_response llm_id agent_response agent_id : value) :
  ObjectId sim_id = Returned oid ->
  simulations w !! oid = Some old ->
  is_None (UpdateSimulationRequest.prompt request) = false ->
  answers env create_llm_url (RETELL_API_KEY env)
    (llm_body (UpdateSimulationRequest.prompt request)) 201 llm_response ->
  getitem llm_response (VStr "llm_id") = Returned llm_id ->
  answers env create_agent_url (RETELL_API_KEY env)
    (agent_body llm_id
       (py_or (UpdateSimulationRequest.voice_id request) (VStr "11labs-Adrian")))
    201 agent_response ->
  getitem agent_response (VStr "agent_id") = Returned agent_id ->
  exists set_doc,
    trace (snd (update_simulation env sim_id request w)) =
      trace w ++
      [ DbFindOne oid;
        HttpPost create_llm_url (bearer_headers (RETELL_API_KEY env))
          (llm_body (UpdateSimulationRequest.prompt request));
        HttpPost create_agent_url (bearer_headers (RETELL_API_KEY env))
          (agent_body llm_id
             (py_or (UpdateSimulationRequest.voice_id request)
                    (VStr "11labs-Adrian")));
        DbUpdateOne oid set_doc ]
    /\ dict_get "llmId" set_doc = Some llm_id
    /\ dict_get "agentId" set_doc = Some agent_id.
Proof.
  intros Hoid Hold Hprompt (r & Hpost & Hst & Hjson) Hget
    (r' & Hpost' & Hst' & Hjson') Hget'.
  apply Z.eqb_eq in Hst, Hst'. unfold llm_body in Hpost.
  unfold agent_body in Hpost'.
  destruct (add_mapped_fields_ok request) as [d0 Hd0].
  exec; cbn [trace]; rewrite <- ?app_assoc; cbn [app];
    (eexists; split; [reflexivity|]);
    (split; [rewrite !dict_get_set_ne by discriminate; apply dict_get_set_eq
            |rewrite !dict_get_set_ne by discriminate; apply dict_get_set_eq]).
Qed.

Lemma update_without_prompt
    (env : Env) (sim_id : string) (request : UpdateSimulationRequest.t)
    (w : World) :
  is_None (UpdateSimulationRequest.prompt request) = true ->
  exists events,
    trace (snd (update_simulation env sim_id request w)) = trace w ++ events
    /\ provider_calls events = []
    /\ (forall oid set_doc, DbUpdateOne oid set_doc ∈ events ->
          dict_get "llmId" set_doc = None /\ dict_get "agentId" set_doc = None).
Proof.
  intros Hprompt.
  destruct (add_mapped_fields_ok request) as [d0 Hd0].
  pose proof (staged_get request d0 "llmId" Hd0) as Hl.
  pose proof (staged_get request d0 "agentId" Hd0) as Ha.
  change (dict_get "llmId" (add_special_objects request d0) = None) in Hl.
  change (dict_get "agentId" (add_special_objects request d0) = None) in Ha.
  exec; cbn [trace];
    (first [ exists []; split; [symmetry; apply app_nil_r|]
           | eexists; split; [rewrite <- ?app_assoc; reflexivity|] ]);
    cbn [app]; (split; [reflexivity|]);
    intros oid set_doc Hin;
    repeat (apply elem_of_cons in Hin as [Hin|Hin]; try discriminate Hin);
    try (apply elem_of_nil in Hin; contradiction);
    injection Hin as -> ->;
    split; rewrite !dict_get_set_ne by discriminate; assumption.
Qed.

Lemma py_or_falsy (v d : value) : truthy v = false -> py_or v d = d.
Proof. unfold py_or. intros ->. reflexivity. Qed.

Lemma py_or_truthy (v d : value) : truthy v = true -> py_or v d = v.
Proof. unfold py_or. intros ->. reflexivity. Qed.

(** C1, as worded, fails on an empty voice identifier: the request gives
    a prompt and a voice identifier (the empty string, which is not
    [None]), yet the agent is created with the default voice and not with
    the request's. *)
Lemma empty_voice_id_is_replaced_by_default :
  let request :=
    Sample.update_request VNone Sample.polite_prompt (VStr EmptyString) in
  is_None (UpdateSimulationRequest.prompt request) = false
  /\ is_None (UpdateSimulationRequest.voice_id request) = false
  /\ voice_as_worded request = VStr EmptyString
  /\ provider_calls
       (trace (snd (update_simulation Sample.healthy Sample.known_id request
                      Sample.world)))
     = [ HttpPost create_llm_url (bearer_headers "key_test")
           (llm_body Sample.polite_prompt);
         HttpPost create_agent_url (bearer_headers "key_test")
           (agent_body (VStr "llm_1") (VStr "11labs-Adrian")) ]
  /\ VStr "11labs-Adrian" <> voice_as_worded request.
Proof.
  intros request. subst request.
  split; [reflexivity|]. split; [reflexivity|]. split; [reflexivity|].
  split; [vm_compute; reflexivity|]. discriminate.
Qed.

(** C1, amended.  The voice of the agent is the request's [voice_id]
    when that is truthy, and "11labs-Adrian" when it is [None] or empty.
    For an update of an existing record with a prompt: the first effect
    after the lookup is the LLM creation call for that prompt; when it
    answers 201 with an [llm_id], the next effect is the agent creation
    call bound to that [llm_id] and that voice; when that answers 201 with
    an [agent_id], the only remaining effect is the [$set], which carries
    both identifiers under [llmId] and [agentId].  For any update without
    a prompt: no provider call is made and no [$set] names [llmId] or
    [agentId]. *)
Theorem provisioning_follows_prompt
    (env : Env) (sim_id : string) (request : UpdateSimulationRequest.t)
    (w : World) :
  let run := update_simulation env sim_id request w in
  let key := RETELL_API_KEY env in
  let prompt := UpdateSimulationRequest.prompt request in
  let voice_id := UpdateSimulationRequest.voice_id request in
  let voice := py_or voice_id (VStr "11labs-Adrian") in
  let llm_call := HttpPost create_llm_url (bearer_headers key) (llm_body prompt) in
  let agent_call llm_id :=
    HttpPost create_agent_url (bearer_headers key) (agent_body llm_id voice) in
  (truthy voice_id = true -> voice = voice_id)
  /\ (truthy voice_id = false -> voice = VStr "11labs-Adrian")
  /\ (is_None prompt = false ->
      forall oid old,
        ObjectId sim_id = Returned oid -> simulations w !! oid = Some old ->
        (exists rest, trace (snd run) = trace w ++ DbFindOne oid :: llm_call :: rest)
        /\ forall llm_response llm_id,
             answers env create_llm_url key (llm_body prompt) 201 llm_response ->
             getitem llm_response (VStr "llm_id") = Returned llm_id ->
             (exists rest,
                trace (snd run) =
                  trace w ++ DbFindOne oid :: llm_call :: agent_call llm_id :: rest)
             /\ forall agent_response agent_id,
                  answers env create_agent_url key (agent_body llm_id voice) 201
                    agent_response ->
                  getitem agent_response (VStr "agent_id") = Returned agent_id ->
                  exists set_doc,
                    trace (snd run) =
                      trace w ++ [ DbFindOne oid; llm_call; agent_call llm_id;
                                   DbUpdateOne oid set_doc ]
                    /\ dict_get "llmId" set_doc = Some llm_id
                    /\ dict_get "agentId" set_doc = Some agent_id)
  /\ (is_None prompt = true ->
      exists events,
        trace (snd run) = trace w ++ events
        /\ provider_calls events = []
        /\ (forall oid set_doc, DbUpdateOne oid set_doc ∈ events ->
              dict_get "llmId" set_doc = None
              /\ dict_get "agentId" set_doc = None)).
Proof.
  intros run key prompt voice_id voice llm_call agent_call.
  subst run key prompt voice_id voice llm_call agent_call.
  split; [apply py_or_truthy|]. split; [apply py_or_falsy|]. split.
  - intros Hprompt oid old Hoid Hold. split.
    + eapply update_posts_llm_first; eassumption.
    + intros llm_response llm_id Hllm Hid. split.
      * eapply update_posts_agent_second; eassumption.
      * intros agent_response agent_id Hagent Haid.
        eapply update_stages_both_identifiers; eassumption.
  - apply update_without_prompt.
Qed.

Lemma provisioning_follows_prompt_witness :
  let request := Sample.update_request VNone Sample.polite_prompt VNone in
  let run := update_simulation Sample.healthy Sample.known_id request
               Sample.world in
  is_None (UpdateSimulationRequest.prompt request) = false
  /\ exists set_doc,
       trace (snd run) =
         [ DbFindOne Sample.known_id;
           HttpPost create_llm_url (bearer_headers "key_test")
             (llm_body Sample.polite_prompt);
           HttpPost create_agent_url (bearer_headers "key_test")
             (agent_body (VStr "llm_1") (VStr "11labs-Adrian"));
           DbUpdateOne Sample.known_id set_doc ]
       /\ dict_get "llmId" set_doc = Some (VStr "llm_1")
       /\ dict_get "agentId" set_doc = Some (VStr "agent_1").
Proof.
  intros request run. subst run.
  split; [reflexivity|].
  destruct (provisioning_follows_prompt Sample.healthy Sample.known_id request
              Sample.world) as (_ & _ & Hsome & _).
  destruct (Hsome eq_refl Sample.known_id Sample.configured_doc eq_refl)
    as [_ Hllm];
    [vm_compute; reflexivity|].
  destruct (Hllm (VDict [("llm_id", VStr "llm_1")]) (VStr "llm_1"))
    as [_ Hagent];
    [eexists; repeat split; reflexivity | reflexivity |].
  apply (Hagent (VDict [("agent_id", VStr "agent_1")]) (VStr "agent_1"));
    [eexists; repeat split; reflexivity | reflexivity].
Defined.

(** * Further properties of the update *)

Lemma value_eqb_refl : forall v : value, value_eqb v v = true.
Proof.
  fix IH 1. intros [ | b | n | s | t | o | l | d]; simpl.
  - reflexivity.
  - destruct b; reflexivity.
  - apply Z.eqb_refl.
  - apply String.eqb_refl.
  - apply Z.eqb_refl.
  - apply String.eqb_refl.
  - revert l. fix IHl 1. intros [|x l]; [reflexivity|].
    rewrite IH. simpl. apply IHl.
  - revert d. fix IHd 1. intros [|[k x] d]; [reflexivity|].
    rewrite String.eqb_refl, IH. simpl. apply IHd.
Qed.

Lemma dict_eqb_false_ne (a b : dict) : dict_eqb a b = false -> a <> b.
Proof.
  intros H ->. unfold dict_eqb in H. rewrite value_eqb_refl in H. discriminate.
Qed.

(** What a successful update did, in one place. *)
Lemma update_success_form
    (env : Env) (sim_id : string) (request : UpdateSimulationRequest.t)
    (w w' : World) (result : dict) :
  update_simulation env sim_id request w = (Returned result, w') ->
  exists oid old d0 set_doc,
    ObjectId sim_id = Returned oid
    /\ simulations w !! oid = Some old
    /\ add_mapped_fields request field_mappings [] = Returned d0
    /\ simulations w' = <[oid := dict_update old set_doc]> (simulations w)
    /\ dict_eqb (dict_update old set_doc) old = false
    /\ NoDup set_doc.*1
    /\ dict_get "lastModifiedBy" set_doc
       = Some (UpdateSimulationRequest.user_id request)
    /\ dict_get "lastModified" set_doc = Some (VDatetime (clock env (ticks w)))
    /\ (forall k, k <> "lastModifiedBy" -> k <> "lastModified" ->
                  k <> "agentId" -> k <> "llmId" ->
                  dict_get k set_doc
                  = dict_get k (add_special_objects request d0))
    /\ result = [("id", VStr sim_id); ("status", VStr "success")].
Proof.
  exec; intros [= <- <-];
    match goal with
    | Hm : add_mapped_fields _ _ _ = Returned ?d0,
      Hs : simulations w !! ?oid = Some ?old |- _ =>
        pose proof (staged_NoDup _ _ Hm) as Hnd;
        exists oid, old, d0
    end;
    eexists; (split; [reflexivity|]); (split; [assumption|]);
    (split; [reflexivity|]); (split; [reflexivity|]);
    (split; [eassumption|]);
    (split; [repeat apply dict_set_NoDup; exact Hnd|]);
    (split; [apply dict_get_set_eq|]);
    (split; [rewrite dict_get_set_ne by discriminate; apply dict_get_set_eq|]);
    (split; [|reflexivity]);
    intros k ? ? ? ?; rewrite !dict_get_set_ne by assumption; reflexivity.
Qed.

Lemma present_staged (request : UpdateSimulationRequest.t) (f c : string)
    (v : value) :
  (f, c) ∈ field_mappings ->
  getattr request f = Returned v -> is_None v = false ->
  mapped_value request field_mappings c = Some v
  /\ special_value request c = None
  /\ c <> "lastModifiedBy" /\ c <> "lastModified"
  /\ c <> "agentId" /\ c <> "llmId".
Proof.
  unfold field_mappings. intros Hin.
  repeat (apply elem_of_cons in Hin as [[= -> ->]|Hin]);
    [ .. | apply elem_of_nil in Hin; contradiction ];
    cbv [getattr assoc UpdateSimulationRequest.attributes];
    cbn [String.eqb Ascii.eqb Bool.eqb];
    intros [= <-] Hv;
    (split; [|split; [reflexivity|repeat split; discriminate]]);
    cbv [mapped_value field_mappings List.find snd getattr
         assoc UpdateSimulationRequest.attributes];
    cbn [String.eqb Ascii.eqb Bool.eqb];
    rewrite Hv; reflexivity.
Qed.

Lemma special_staged (request : UpdateSimulationRequest.t) (c : string)
    (v : value) :
  special_value request c = Some v ->
  c <> "lastModifiedBy" /\ c <> "lastModified"
  /\ c <> "agentId" /\ c <> "llmId".
Proof.
  unfold special_value.
  repeat match goal with
    | |- context [String.eqb c ?k] =>
        destruct (String.eqb_spec c k);
          [subst c; intros _; repeat split; discriminate|]
    end.
  discriminate.
Qed.

Lemma unnamed_not_staged (request : UpdateSimulationRequest.t) (k : string) :
  k ∉ request_document_fields.*2 ->
  mapped_value request field_mappings k = None
  /\ special_value request k = None.
Proof.
  unfold request_document_fields. rewrite fmap_app, not_elem_of_app.
  intros [Hmap Hspecial]. split.
  - unfold mapped_value. rewrite (find_doc_name_None _ _ Hmap). reflexivity.
  - cbn [fmap list_fmap snd] in Hspecial.
    rewrite !not_elem_of_cons in Hspecial.
    destruct Hspecial as (H1 & H2 & H3 & H4 & H5 & H6 & _).
    unfold special_value.
    repeat match goal with
      | |- context [String.eqb k ?c] =>
          destruct (String.eqb_spec k c); [contradiction|]
      end.
    reflexivity.
Qed.

(** X1.  After a successful update, every request attribute of the name
    table that is not [None] is the value of the stored field of its
    document name. *)
Theorem update_copies_supplied_fields
    (env : Env) (sim_id : string) (request : UpdateSimulationRequest.t)
    (w w' : World) (result : dict) :
  update_simulation env sim_id request w = (Returned result, w') ->
  exists oid,
    ObjectId sim_id = Returned oid
    /\ forall f c v,
         (f, c) ∈ field_mappings ->
         getattr request f = Returned v -> is_None v = false ->
         stored_field w' oid c = Some v.
Proof.
  intros Hrun.
  destruct (update_success_form _ _ _ _ _ _ Hrun)
    as (oid & old & d0 & set_doc & Hoid & Hold & Hd0 & Hnew & _ & Hnd & _ & _
        & Hrest & _).
  exists oid. split; [exact Hoid|].
  intros f c v Hin Hattr Hv.
  destruct (present_staged request f c v Hin Hattr Hv)
    as (Hmv & Hsv & H1 & H2 & H3 & H4).
  rewrite (stored_field_insert w w' oid old set_doc c Hold Hnew Hnd).
  rewrite (Hrest c H1 H2 H3 H4), (staged_get _ _ _ Hd0), Hsv, Hmv.
  reflexivity.
Qed.

Lemma update_copies_supplied_fields_witness :
  let request := Sample.update_request (VStr "Renamed") VNone VNone in
  let run := update_simulation Sample.healthy Sample.known_id request
               Sample.world in
  stored_field (snd run) Sample.known_id "name" = Some (VStr "Renamed").
Proof.
  intros request run.
  assert (Hrun : run =
    (Returned [("id", VStr Sample.known_id); ("status", VStr "success")],
     snd run)) by (vm_compute; reflexivity).
  destruct (update_copies_supplied_fields _ _ _ _ _ _ Hrun)
    as (oid & Hoid & Hcopy).
  injection Hoid as <-.
  apply (Hcopy "name" "name" (VStr "Renamed")).
  - apply (bool_decide_unpack _). vm_compute. exact I.
  - reflexivity.
  - reflexivity.
Defined.

(** X2.  After a successful update, a supplied script and each supplied
    configuration sub-block is stored as the whole object built from the
    request, independently of what the record held. *)
Theorem update_replaces_special_objects_wholesale
    (env : Env) (sim_id : string) (request : UpdateSimulationRequest.t)
    (w w' : World) (result : dict) :
  update_simulation env sim_id request w = (Returned result, w') ->
  exists oid,
    ObjectId sim_id = Returned oid
    /\ (forall script,
          UpdateSimulationRequest.script request = Some script ->
          stored_field w' oid "script"
          = Some (VList (map ScriptLine.to_dict script)))
    /\ (forall l,
          UpdateSimulationRequest.lvl1 request = Some l ->
          stored_field w' oid "lvl1" = Some (lvl1_doc l))
    /\ (forall l,
          UpdateSimulationRequest.lvl2 request = Some l ->
          stored_field w' oid "lvl2"
          = Some (VDict [("isEnabled", Lvl2.is_enabled l)]))
    /\ (forall l,
          UpdateSimulationRequest.lvl3 request = Some l ->
          stored_field w' oid "lvl3"
          = Some (VDict [("isEnabled", Lvl3.is_enabled l)]))
    /\ (forall m,
          UpdateSimulationRequest.simulation_scoring_metrics request = Some m ->
          stored_field w' oid "simulationScoringMetrics"
          = Some (VDict
                    [ ("isEnabled", SimulationScoringMetrics.is_enabled m);
                      ("keywordScore", SimulationScoringMetrics.keyword_score m);
                      ("clickScore", SimulationScoringMetrics.click_score m) ]))
    /\ (forall p,
          UpdateSimulationRequest.sim_practice request = Some p ->
          stored_field w' oid "simPractice"
          = Some (VDict
                    [ ("isUnlimited", SimPractice.is_unlimited p);
                      ("preRequisiteLimit", SimPractice.pre_requisite_limit p) ])).
Proof.
  intros Hrun.
  destruct (update_success_form _ _ _ _ _ _ Hrun)
    as (oid & old & d0 & set_doc & Hoid & Hold & Hd0 & Hnew & _ & Hnd & _ & _
        & Hrest & _).
  exists oid. split; [exact Hoid|].
  assert (Hspecial : forall c v, special_value request c = Some v ->
                                 stored_field w' oid c = Some v).
  { intros c v Hsv.
    destruct (special_staged request c v Hsv) as (H1 & H2 & H3 & H4).
    rewrite (stored_field_insert w w' oid old set_doc c Hold Hnew Hnd).
    rewrite (Hrest c H1 H2 H3 H4), (staged_get _ _ _ Hd0), Hsv.
    reflexivity. }
  repeat split; intros x Hx; apply Hspecial;
    cbv [special_value]; cbn [String.eqb Ascii.eqb Bool.eqb];
    rewrite Hx; reflexivity.
Qed.

Lemma update_replaces_special_objects_wholesale_witness :
  let request :=
    {| UpdateSimulationRequest.user_id := VStr "u2";
       UpdateSimulationRequest.name := VNone;
       UpdateSimulationRequest.division_id := VNone;
       UpdateSimulationRequest.department_id := VNone;
       UpdateSimulationRequest.type := VNone;
       UpdateSimulationRequest.tags := VNone;
       UpdateSimulationRequest.status := VNone;
       UpdateSimulationRequest.estimated_time_to_attempt_in_mins := VNone;
       UpdateSimulationRequest.key_objectives := VNone;
       UpdateSimulationRequest.overview_video := VNone;
       UpdateSimulationRequest.quick_tips := VNone;
       UpdateSimulationRequest.voice_id := VNone;
       UpdateSimulationRequest.language := VNone;
       UpdateSimulationRequest.mood := VNone;
       UpdateSimulationRequest.voice_speed := VNone;
       UpdateSimulationRequest.prompt := VNone;
       UpdateSimulationRequest.simulation_completion_repetition := VNone;
       UpdateSimulationRequest.simulation_max_repetition := VNone;
       UpdateSimulationRequest.final_simulation_score_criteria := VNone;
       UpdateSimulationRequest.is_locked := VNone;
       UpdateSimulationRequest.version := VNone;
       UpdateSimulationRequest.assistant_id := VNone;
       UpdateSimulationRequest.slides := VNone;
       UpdateSimulationRequest.script := Some Sample.refund_script;
       UpdateSimulationRequest.lvl1 := None;
       UpdateSimulationRequest.lvl2 :=
         Some {| Lvl2.is_enabled := VBool true |};
       UpdateSimulationRequest.lvl3 := None;
       UpdateSimulationRequest.simulation_scoring_metrics := None;
       UpdateSimulationRequest.sim_practice := None |} in
  let run := update_simulation Sample.healthy Sample.known_id request
               Sample.world in
  stored_field (snd run) Sample.known_id "lvl2"
  = Some (VDict [("isEnabled", VBool true)])
  /\ stored_field (snd run) Sample.known_id "script"
    = Some (VList (map ScriptLine.to_dict Sample.refund_script)).
Proof.
  intros request run.
  assert (Hrun : run =
    (Returned [("id", VStr Sample.known_id); ("status", VStr "success")],
     snd run)) by (vm_compute; reflexivity).
  destruct (update_replaces_special_objects_wholesale _ _ _ _ _ _ Hrun)
    as (oid & Hoid & Hscript & _ & Hlvl2 & _).
  injection Hoid as <-.
  split; [exact (Hlvl2 _ eq_refl) | exact (Hscript _ eq_refl)].
Defined.

(** X3.  An update, whatever its outcome, keeps the set of stored
    identifiers and leaves every record but the addressed one as it
    was. *)
Theorem update_touches_one_record
    (env : Env) (sim_id : string) (request : UpdateSimulationRequest.t)
    (w : World) :
  let w' := snd (update_simulation env sim_id request w) in
  dom (simulations w') = dom (simulations w)
  /\ forall oid', ObjectId sim_id <> Returned oid' ->
       simulations w' !! oid' = simulations w !! oid'.
Proof.
  intros w'. subst w'.
  exec; (split; [|intros oid' Hne]); try reflexivity.
  all: try (apply dom_insert_lookup_L; eauto; fail).
  all: apply lookup_insert_ne; congruence.
Qed.

Lemma update_touches_one_record_witness :
  simulations
    (snd (update_simulation Sample.healthy Sample.known_id
            (Sample.update_request (VStr "Renamed") VNone VNone) Sample.world))
    !! Sample.bare_id = Some Sample.bare_doc.
Proof.
  destruct (update_touches_one_record Sample.healthy Sample.known_id
              (Sample.update_request (VStr "Renamed") VNone VNone)
              Sample.world) as [_ Hother].
  rewrite (Hother Sample.bare_id) by discriminate.
  vm_compute. reflexivity.
Defined.

Lemma update_failure_keeps_store
    (env : Env) (sim_id : string) (request : UpdateSimulationRequest.t)
    (w w' : World) (e : exn) :
  update_simulation env sim_id request w = (Raised e, w') ->
  simulations w' = simulations w.
Proof. exec; intros [= <- <-]; reflexivity. Qed.

(** X4.  An update writes only named fields: a stored field whose name
    is not a document name of a request attribute and is none of [llmId],
    [agentId], [lastModified], [lastModifiedBy] is unchanged, in every
    record and whatever the outcome. *)
Theorem update_writes_only_named_fields
    (env : Env) (sim_id : string) (request : UpdateSimulationRequest.t)
    (w : World) (oid k : string) :
  k ∉ request_document_fields.*2 ->
  k <> "llmId" -> k <> "agentId" ->
  k <> "lastModified" -> k <> "lastModifiedBy" ->
  stored_field (snd (update_simulation env sim_id request w)) oid k
  = stored_field w oid k.
Proof.
  intros Hk H4 H3 H2 H1.
  destruct (unnamed_not_staged request k Hk) as [Hmv Hsv].
  destruct (update_simulation env sim_id request w) as [[result|e] w'] eqn:Hrun.
  - destruct (update_success_form _ _ _ _ _ _ Hrun)
      as (oid0 & old & d0 & set_doc & Hoid & Hold & Hd0 & Hnew & _ & Hnd & _
          & _ & Hrest & _).
    cbn [snd]. destruct (decide (oid0 = oid)) as [<-|Hne].
    + rewrite (stored_field_insert w w' oid0 old set_doc k Hold Hnew Hnd).
      rewrite (Hrest k H1 H2 H3 H4), (staged_get _ _ _ Hd0), Hsv, Hmv.
      reflexivity.
    + eapply stored_field_insert_other; eassumption.
  - cbn [snd]. unfold stored_field.
    rewrite (update_failure_keeps_store _ _ _ _ _ _ Hrun). reflexivity.
Qed.

Lemma update_writes_only_named_fields_witness :
  stored_field
    (snd (update_simulation Sample.healthy Sample.known_id
            (Sample.update_request (VStr "Renamed") Sample.polite_prompt VNone)
            Sample.world))
    Sample.known_id "createdBy" = Some (VStr "u1").
Proof.
  rewrite (update_writes_only_named_fields Sample.healthy Sample.known_id
             (Sample.update_request (VStr "Renamed") Sample.polite_prompt VNone)
             Sample.world Sample.known_id "createdBy");
    [vm_compute; reflexivity | | discriminate | discriminate | discriminate
    | discriminate].
  apply (bool_decide_unpack _). vm_compute. exact I.
Defined.

(** X5.  A successful update changed the addressed record: the stored
    document afterwards differs from the one before. *)
Theorem update_success_means_change
    (env : Env) (sim_id : string) (request : UpdateSimulationRequest.t)
    (w w' : World) (result : dict) :
  update_simulation env sim_id request w = (Returned result, w') ->
  exists oid old new,
    ObjectId sim_id = Returned oid
    /\ simulations w !! oid = Some old
    /\ simulations w' !! oid = Some new
    /\ new <> old.
Proof.
  intros Hrun.
  destruct (update_success_form _ _ _ _ _ _ Hrun)
    as (oid & old & d0 & set_doc & Hoid & Hold & _ & Hnew & Hne & _).
  exists oid, old, (dict_update old set_doc).
  split; [exact Hoid|]. split; [exact Hold|]. split.
  - rewrite Hnew. apply lookup_insert_eq.
  - apply dict_eqb_false_ne, Hne.
Qed.

Lemma update_success_means_change_witness :
  exists oid old new,
    ObjectId Sample.known_id = Returned oid
    /\ simulations Sample.world !! oid = Some old
    /\ simulations
         (snd (update_simulation Sample.healthy Sample.known_id
                 (Sample.update_request (VStr "Renamed") VNone VNone)
                 Sample.world)) !! oid = Some new
    /\ new <> old.
Proof.
  apply (update_success_means_change Sample.healthy Sample.known_id
           (Sample.update_request (VStr "Renamed") VNone VNone) Sample.world _
           [("id", VStr Sample.known_id); ("status", VStr "success")]).
  vm_compute. reflexivity.
Defined.

Lemma getitem_raises (v key : value) (e : exn) :
  getitem v key = Raised e -> exists m, e = Exception m.
Proof.
  unfold getitem. destruct v, key;
    repeat match goal with
      | |- context [match ?x with _ => _ end] => destruct x
      end;
    intros [= <-]; eauto.
Qed.

(** X6.  The failure "Failed to update simulation" arises exactly on the
    path where the record exists and the [$set] was issued but changes
    nothing: the collection is as before and the trace gained that one
    store write. *)
Theorem update_without_effect_is_a_failure
    (env : Env) (sim_id : string) (request : UpdateSimulationRequest.t)
    (w w' : World) :
  update_simulation env sim_id request w
    = (Raised (HTTPException 500 "Failed to update simulation"), w') ->
  simulations w' = simulations w
  /\ exists oid old set_doc,
       ObjectId sim_id = Returned oid
       /\ simulations w !! oid = Some old
       /\ store_writes (trace w')
          = store_writes (trace w) ++ [DbUpdateOne oid set_doc]
       /\ dict_eqb (dict_update old set_doc) old = true.
Proof.
  intros Hrun. split; [eapply update_failure_keeps_store, Hrun|].
  revert Hrun.
  destruct (add_mapped_fields_ok request) as [d0 Hd0].
  exec; intros H; try discriminate H;
    try (match goal with
         | Ho : ObjectId _ = Raised _ |- _ =>
             destruct (ObjectId_raises _ _ Ho) as [? [=]]
         | Hg : getitem _ _ = Raised (HTTPException _ _) |- _ =>
             destruct (getitem_raises _ _ _ Hg) as [? [=]]
         end);
    try (injection H as _ Hd _; cbn [String.append] in Hd; discriminate Hd);
    injection H as <-;
    eexists _, _, _; (split; [reflexivity|]); (split; [eassumption|]);
    (split; [simpl_traces; reflexivity | eassumption]).
Qed.

Lemma update_without_effect_is_a_failure_witness :
  let stamped : World :=
    {| simulations :=
         {[ Sample.known_id :=
              [ ("name", VStr "Refunds");
                ("lastModified", VDatetime 1000);
                ("lastModifiedBy", VStr "u2") ] ]};
       trace := [];
       ticks := 0 |} in
  let run := update_simulation Sample.healthy Sample.known_id
               (Sample.update_request VNone VNone VNone) stamped in
  fst run = Raised (HTTPException 500 "Failed to update simulation")
  /\ simulations (snd run) = simulations stamped.
Proof.
  intros stamped run.
  assert (Hrun : run =
    (Raised (HTTPException 500 "Failed to update simulation"), snd run))
    by (vm_compute; reflexivity).
  split; [rewrite Hrun; reflexivity|].
  exact (proj1 (update_without_effect_is_a_failure _ _ _ _ _ Hrun)).
Defined.

(** * Preview *)

(** X7.  For an existing record with an agent, when the provider answers
    the web-call request with 201 and a body holding an [access_token],
    the preview returns that token; its effects are the lookup, one post
    carrying the record's [agentId], and the printing of the body. *)
Theorem preview_returns_access_token
    (env : Env) (sim_id : string) (user_id : value) (w : World)
    (oid : string) (doc : dict) (body token : value) :
  let agent_id := dict_get_or_none "agentId" doc in
  let call := HttpPost create_web_call_url (bearer_headers (RETELL_API_KEY env))
                (VDict [("agent_id", agent_id)]) in
  ObjectId sim_id = Returned oid ->
  simulations w !! oid = Some doc ->
  truthy agent_id = true ->
  answers env create_web_call_url (RETELL_API_KEY env)
    (VDict [("agent_id", agent_id)]) 201 body ->
  getitem body (VStr "access_token") = Returned token ->
  start_audio_simulation_preview env sim_id user_id w
  = (Returned [("access_token", token)],
     {| simulations := simulations w;
        trace := trace w ++ [DbFindOne oid; call; Print body];
        ticks := ticks w |}).
Proof.
  intros agent_id call Hoid Hdoc Ht (r & Hpost & Hst & Hjson) Htok.
  subst call agent_id. apply Z.eqb_eq in Hst.
  change (dict_get_or_none "agentId" doc)
    with (dict_get_or_none "agentId" (("_id", VObjectId oid) :: doc))
    in Ht, Hpost |- *.
  exec. rewrite <- !app_assoc. reflexivity.
Qed.

Lemma preview_returns_access_token_witness :
  fst (start_audio_simulation_preview Sample.healthy Sample.known_id
         (VStr "u1") Sample.world)
  = Returned [("access_token", VStr "token_1")].
Proof.
  rewrite (preview_returns_access_token Sample.healthy Sample.known_id
             (VStr "u1") Sample.world Sample.known_id Sample.configured_doc
             (VDict [("access_token", VStr "token_1")]) (VStr "token_1")).
  - reflexivity.
  - reflexivity.
  - vm_compute. reflexivity.
  - reflexivity.
  - eexists. repeat split; reflexivity.
  - reflexivity.
Defined.

(** X8.  A preview is read-only: whatever happens, the collection and
    the clock are untouched, no store write is issued, and at most one
    provider call is made, to the web-call endpoint. *)
Theorem preview_is_read_only
    (env : Env) (sim_id : string) (user_id : value) (w : World) :
  let w' := snd (start_audio_simulation_preview env sim_id user_id w) in
  simulations w' = simulations w
  /\ ticks w' = ticks w
  /\ store_writes (trace w') = store_writes (trace w)
  /\ (provider_calls (trace w') = provider_calls (trace w)
      \/ exists agent_id,
           provider_calls (trace w')
           = provider_calls (trace w) ++
             [HttpPost create_web_call_url
                (bearer_headers (RETELL_API_KEY env))
                (VDict [("agent_id", agent_id)])]).
Proof.
  intros w'. subst w'.
  exec; (split; [reflexivity|]); (split; [reflexivity|]);
    (split; [simpl_traces; reflexivity|]); simpl_traces;
    first [ left; reflexivity | right; eexists; reflexivity ].
Qed.

Lemma preview_falsy_agent_run
    (env : Env) (sim_id : string) (user_id : value) (w : World)
    (oid : string) (doc : dict) :
  ObjectId sim_id = Returned oid ->
  simulations w !! oid = Some doc ->
  truthy (dict_get_or_none "agentId" doc) = false ->
  start_audio_simulation_preview env sim_id user_id w
  = (Raised (HTTPException 400 "Simulation does not have an agent configured"),
     add_event (DbFindOne oid) w).
Proof.
  intros Hoid Hdoc Ht.
  change (dict_get_or_none "agentId" doc)
    with (dict_get_or_none "agentId" (("_id", VObjectId oid) :: doc)) in Ht.
  exec. reflexivity.
Qed.

Lemma preview_posts_web_call
    (env : Env) (sim_id : string) (user_id : value) (w : World)
    (oid : string) (doc : dict) (agent_id : value) :
  ObjectId sim_id = Returned oid ->
  simulations w !! oid = Some doc ->
  dict_get "agentId" doc = Some agent_id ->
  truthy agent_id = true ->
  provider_calls
    (trace (snd (start_audio_simulation_preview env sim_id user_id w)))
  = provider_calls (trace w) ++
    [HttpPost create_web_call_url (bearer_headers (RETELL_API_KEY env))
       (VDict [("agent_id", agent_id)])].
Proof.
  intros Hoid Hdoc Hagent Ht.
  assert (Ha : dict_get_or_none "agentId" (("_id", VObjectId oid) :: doc)
               = agent_id).
  { unfold dict_get_or_none.
    change (dict_get "agentId" (("_id", VObjectId oid) :: doc))
      with (dict_get "agentId" doc). rewrite Hagent. reflexivity. }
  rewrite <- Ha in Ht.
  exec; simpl_traces; rewrite Ha; reflexivity.
Qed.

(** X9.  The agent test is a truthiness test: a record whose [agentId]
    is falsy (absent, [None], empty) makes the preview fail with 400
    after the lookup and nothing else. *)
Theorem preview_refuses_falsy_agent
    (env : Env) (sim_id : string) (user_id : value) (w : World)
    (oid : string) (doc : dict) :
  ObjectId sim_id = Returned oid ->
  simulations w !! oid = Some doc ->
  truthy (dict_get_or_none "agentId" doc) = false ->
  start_audio_simulation_preview env sim_id user_id w
  = (Raised (HTTPException 400 "Simulation does not have an agent configured"),
     add_event (DbFindOne oid) w).
Proof. apply preview_falsy_agent_run. Qed.

Lemma preview_refuses_falsy_agent_witness :
  let w : World :=
    {| simulations :=
         {[ Sample.known_id :=
              [("name", VStr "Refunds"); ("agentId", VStr EmptyString)] ]};
       trace := [];
       ticks := 0 |} in
  fst (start_audio_simulation_preview Sample.healthy Sample.known_id
         (VStr "u1") w)
  = Raised (HTTPException 400 "Simulation does not have an agent configured").
Proof.
  intros w.
  rewrite (preview_refuses_falsy_agent Sample.healthy Sample.known_id
             (VStr "u1") w Sample.known_id
             [("name", VStr "Refunds"); ("agentId", VStr EmptyString)]).
  - reflexivity.
  - reflexivity.
  - vm_compute. reflexivity.
  - reflexivity.
Defined.

(** X10.  A 201 answer whose body is an object without [access_token]
    makes the preview fail with the generic 500 failure carrying the
    missing key. *)
Theorem preview_without_access_token
    (env : Env) (sim_id : string) (user_id : value) (w : World)
    (oid : string) (doc : dict) (fields : dict) :
  let agent_id := dict_get_or_none "agentId" doc in
  ObjectId sim_id = Returned oid ->
  simulations w !! oid = Some doc ->
  truthy agent_id = true ->
  answers env create_web_call_url (RETELL_API_KEY env)
    (VDict [("agent_id", agent_id)]) 201 (VDict fields) ->
  dict_get "access_token" fields = None ->
  fst (start_audio_simulation_preview env sim_id user_id w)
  = Raised (HTTPException 500
              "Error starting audio simulation preview: 'access_token'").
Proof.
  intros agent_id Hoid Hdoc Ht (r & Hpost & Hst & Hjson) Htok.
  subst agent_id. apply Z.eqb_eq in Hst.
  change (dict_get_or_none "agentId" doc)
    with (dict_get_or_none "agentId" (("_id", VObjectId oid) :: doc))
    in Ht, Hpost |- *.
  assert (Hget : getitem (VDict fields) (VStr "access_token")
                 = Raised (Exception "'access_token'"))
    by (cbn [getitem]; rewrite Htok; reflexivity).
  exec. reflexivity.
Qed.

Lemma preview_without_access_token_witness :
  fst (start_audio_simulation_preview
         (Sample.make_env (fun _ _ _ =>
            Returned (Sample.ok_response (VDict [("call_id", VStr "c1")]) 201)))
         Sample.known_id (VStr "u1") Sample.world)
  = Raised (HTTPException 500
              "Error starting audio simulation preview: 'access_token'").
Proof.
  apply (preview_without_access_token _ Sample.known_id (VStr "u1")
           Sample.world Sample.known_id Sample.configured_doc
           [("call_id", VStr "c1")]).
  - reflexivity.
  - vm_compute. reflexivity.
  - reflexivity.
  - eexists. repeat split; reflexivity.
  - reflexivity.
Defined.

(** X11.  A failure of the web-call client is re-raised by the preview
    as it is: status 500 with the client's own prefix, not wrapped
    again. *)
Theorem preview_passes_web_call_failure_on
    (env : Env) (sim_id : string) (user_id : value) (w w0 : World)
    (oid : string) (doc : dict) (e : exn) :
  let agent_id := dict_get_or_none "agentId" doc in
  ObjectId sim_id = Returned oid ->
  simulations w !! oid = Some doc ->
  truthy agent_id = true ->
  fst (_create_web_call env agent_id w0) = Raised e ->
  fst (start_audio_simulation_preview env sim_id user_id w) = Raised e
  /\ exists detail, e = HTTPException 500 ("Error creating web call: " +:+ detail).
Proof.
  intros agent_id Hoid Hdoc Ht. subst agent_id.
  change (dict_get_or_none "agentId" doc)
    with (dict_get_or_none "agentId" (("_id", VObjectId oid) :: doc))
    in Ht |- *.
  exec; intros H; try discriminate H; injection H as <-;
    (split; [reflexivity | eexists; reflexivity]).
Qed.

Lemma preview_passes_web_call_failure_on_witness :
  fst (start_audio_simulation_preview (Sample.failing 404) Sample.known_id
         (VStr "u1") Sample.world)
  = Raised (HTTPException 500
              "Error creating web call: 404: Failed to create web call").
Proof.
  apply (preview_passes_web_call_failure_on (Sample.failing 404)
           Sample.known_id (VStr "u1") Sample.world Sample.world
           Sample.known_id Sample.configured_doc).
  - reflexivity.
  - vm_compute. reflexivity.
  - reflexivity.
  - reflexivity.
Defined.

(** * Provisioning order and failure kinds *)

(** X12.  Provisioning is sequential: for an update of an existing
    record with a prompt, unless the LLM creation answers 201 with an
    [llm_id], the update fails after the lookup and that one call; the
    agent creation is never attempted and the collection is as before. *)
Theorem no_agent_without_llm
    (env : Env) (sim_id : string) (request : UpdateSimulationRequest.t)
    (w : World) (oid : string) (old : dict) :
  let prompt := UpdateSimulationRequest.prompt request in
  let run := update_simulation env sim_id request w in
  ObjectId sim_id = Returned oid ->
  simulations w !! oid = Some old ->
  is_None prompt = false ->
  ~ (exists llm_response llm_id,
       answers env create_llm_url (RETELL_API_KEY env) (llm_body prompt) 201
         llm_response
       /\ getitem llm_response (VStr "llm_id") = Returned llm_id) ->
  failed (fst run)
  /\ trace (snd run)
     = trace w ++
       [ DbFindOne oid;
         HttpPost create_llm_url (bearer_headers (RETELL_API_KEY env))
           (llm_body prompt) ]
  /\ simulations (snd run) = simulations w.
Proof.
  intros prompt run Hoid Hold Hprompt Hno. subst prompt run.
  destruct (add_mapped_fields_ok request) as [d0 Hd0].
  exec;
    try (split; [apply failed_Raised
                | split; [rewrite <- ?app_assoc; reflexivity | reflexivity]]).
  all: exfalso; apply Hno; eexists _, _; split; [|eassumption];
    eexists; split; [eassumption|]; split; [|eassumption];
    apply Z.eqb_eq; assumption.
Qed.

Lemma no_agent_without_llm_witness :
  let run := update_simulation (Sample.failing 500) Sample.known_id
               (Sample.update_request VNone Sample.polite_prompt VNone)
               Sample.world in
  failed (fst run)
  /\ trace (snd run)
     = [ DbFindOne Sample.known_id;
         HttpPost create_llm_url (bearer_headers "key_test")
           (llm_body Sample.polite_prompt) ].
Proof.
  intros run.
  destruct (no_agent_without_llm (Sample.failing 500) Sample.known_id
              (Sample.update_request VNone Sample.polite_prompt VNone)
              Sample.world Sample.known_id Sample.configured_doc)
    as (Hf & Ht & _).
  - reflexivity.
  - vm_compute. reflexivity.
  - reflexivity.
  - intros (llm_response & llm_id & (r & Hpost & Hst & _) & _).
    injection Hpost as <-. discriminate Hst.
  - split; [exact Hf | exact Ht].
Defined.

(** X13.  The failures the two operations can raise: only
    [HTTPException], with status 500, or 404 and then the identifier is
    well formed and resolves to no record, or (preview only) 400 and then
    the record exists. *)
Theorem failure_kinds
    (env : Env) (sim_id : string) (request : UpdateSimulationRequest.t)
    (user_id : value) (w : World) (e : exn) :
  (fst (update_simulation env sim_id request w) = Raised e ->
     exists detail,
       e = HTTPException 500 detail
       \/ (e = HTTPException 404 detail
           /\ exists oid, ObjectId sim_id = Returned oid
                          /\ simulations w !! oid = None))
  /\ (fst (start_audio_simulation_preview env sim_id user_id w) = Raised e ->
        exists detail,
          e = HTTPException 500 detail
          \/ (e = HTTPException 404 detail
              /\ exists oid, ObjectId sim_id = Returned oid
                             /\ simulations w !! oid = None)
          \/ (e = HTTPException 400 detail
              /\ exists oid doc, ObjectId sim_id = Returned oid
                                 /\ simulations w !! oid = Some doc)).
Proof.
  destruct (add_mapped_fields_ok request) as [d0 Hd0].
  split; exec; intros H; try discriminate H;
    try (match goal with
         | Ho : ObjectId _ = Raised _ |- _ =>
             destruct (ObjectId_raises _ _ Ho) as [? [=]]
         | Hg : getitem _ _ = Raised (HTTPException _ _) |- _ =>
             destruct (getitem_raises _ _ _ Hg) as [? [=]]
         end);
    injection H as <-; eexists;
    first [ left; reflexivity
          | right; split; [reflexivity|]; eexists; split; [reflexivity|];
            assumption
          | right; left; split; [reflexivity|]; eexists; split; [reflexivity|];
            assumption
          | right; right; split; [reflexivity|]; eexists _, _;
            split; [reflexivity|]; eassumption ].
Qed.

Lemma failure_kinds_witness :
  exists detail,
    HTTPException 404 "Simulation with id 65a1b2c3d4e5f60718293a4c not found"
    = HTTPException 500 detail
    \/ (HTTPException 404 "Simulation with id 65a1b2c3d4e5f60718293a4c not found"
        = HTTPException 404 detail
        /\ exists oid, ObjectId Sample.fresh_id = Returned oid
                       /\ simulations Sample.world !! oid = None).
Proof.
  apply (proj1 (failure_kinds Sample.healthy Sample.fresh_id
                  (Sample.update_request VNone VNone VNone) VNone
                  Sample.world _)).
  vm_compute. reflexivity.
Defined.

(** X14.  The two provisioning clients: each returns a body exactly when
    the provider answers its post with 201 and that parsed body; each
    raises only status 500 under its own prefix; each makes exactly one
    post, whatever the outcome. *)
Theorem provisioning_clients_contract
    (env : Env) (prompt llm_id voice_id : value) (w : World) :
  let key := RETELL_API_KEY env in
  (forall body,
      fst (_create_retell_llm env prompt w) = Returned body
      <-> answers env create_llm_url key (llm_body prompt) 201 body)
  /\ (forall body,
        fst (_create_retell_agent env llm_id voice_id w) = Returned body
        <-> answers env create_agent_url key (agent_body llm_id voice_id) 201
              body)
  /\ (forall e,
        fst (_create_retell_llm env prompt w) = Raised e ->
        exists m, e = HTTPException 500 ("Error creating Retell LLM: " +:+ m))
  /\ (forall e,
        fst (_create_retell_agent env llm_id voice_id w) = Raised e ->
        exists m, e = HTTPException 500 ("Error creating Retell Agent: " +:+ m))
  /\ snd (_create_retell_llm env prompt w)
     = add_event (HttpPost create_llm_url (bearer_headers key) (llm_body prompt))
         w
  /\ snd (_create_retell_agent env llm_id voice_id w)
     = add_event (HttpPost create_agent_url (bearer_headers key)
                    (agent_body llm_id voice_id)) w.
Proof.
  intros key. subst key. unfold answers, llm_body, agent_body.
  split; [|split; [|split; [|split; [|split]]]].
  - intros body. exec; split; intros H; try discriminate H.
    + injection H as <-. eexists. split; [reflexivity|].
      split; [apply Z.eqb_eq|]; assumption.
    + destruct H as (r & [= <-] & _ & Hj). congruence.
    + destruct H as (r & [= <-] & _ & Hj). congruence.
    + destruct H as (r & [= <-] & Hs & _). apply Z.eqb_eq in Hs. congruence.
    + destruct H as (r & [=] & _).
  - intros body. exec; split; intros H; try discriminate H.
    + injection H as <-. eexists. split; [reflexivity|].
      split; [apply Z.eqb_eq|]; assumption.
    + destruct H as (r & [= <-] & _ & Hj). congruence.
    + destruct H as (r & [= <-] & _ & Hj). congruence.
    + destruct H as (r & [= <-] & Hs & _). apply Z.eqb_eq in Hs. congruence.
    + destruct H as (r & [=] & _).
  - intros e. exec; intros H; try discriminate H; injection H as <-;
      eexists; reflexivity.
  - intros e. exec; intros H; try discriminate H; injection H as <-;
      eexists; reflexivity.
  - exec; reflexivity.
  - exec; reflexivity.
Qed.

Lemma provisioning_clients_contract_witness :
  fst (_create_retell_llm Sample.healthy Sample.polite_prompt Sample.world)
  = Returned (VDict [("llm_id", VStr "llm_1")])
  /\ exists m,
       HTTPException 500 "Error creating Retell Agent: 422: Failed to create Retell Agent"
       = HTTPException 500 ("Error creating Retell Agent: " +:+ m).
Proof.
  destruct (provisioning_clients_contract Sample.healthy Sample.polite_prompt
              (VStr "llm_1") (VStr "11labs-Adrian") Sample.world)
    as (Hllm & _).
  destruct (provisioning_clients_contract Sample.agent_refusing
              Sample.polite_prompt (VStr "llm_1") (VStr "11labs-Adrian")
              Sample.world) as (_ & _ & _ & Hagent & _).
  split.
  - apply Hllm. eexists. repeat split; reflexivity.
  - apply Hagent. vm_compute. reflexivity.
Defined.

(** * Prompt generation and creation *)

(** X15.  Prompt generation returns [content] exactly when the provider
    answers 200 with a body in which [choices[0].message.content] is
    [content]; an empty [choices] list gives the index error under the
    client's prefix; every failure is status 500 under that prefix. *)
Theorem prompt_extraction
    (env : Env) (script : list ScriptLine.t) (w : World) :
  let request := chat_body (str_join newline (map transcript_line script)) in
  (forall content,
      fst (_generate_simulation_prompt env script w) = Returned content
      <-> exists body choices choice message,
            answers env openai_url (OPENAI_API_KEY env) request 200 body
            /\ getitem body (VStr "choices") = Returned choices
            /\ getitem choices (VInt 0) = Returned choice
            /\ getitem choice (VStr "message") = Returned message
            /\ getitem message (VStr "content") = Returned content)
  /\ (forall body,
        answers env openai_url (OPENAI_API_KEY env) request 200 body ->
        getitem body (VStr "choices") = Returned (VList []) ->
        fst (_generate_simulation_prompt env script w)
        = Raised (HTTPException 500
                    "Error generating simulation prompt: list index out of range"))
  /\ (forall e,
        fst (_generate_simulation_prompt env script w) = Raised e ->
        exists m,
          e = HTTPException 500 ("Error generating simulation prompt: " +:+ m)).
Proof.
  intros request. subst request. unfold answers, chat_body.
  split; [|split].
  - intros content. split.
    + exec; intros H; try discriminate H. injection H as <-.
      eexists _, _, _, _. split.
      * eexists. split; [reflexivity|]. split; [apply Z.eqb_eq|]; eassumption.
      * repeat split; eassumption.
    + intros (body & choices & choice & message & (r & Hpost & Hst & Hjson)
              & Hc & Hc0 & Hm & Hcontent).
      apply Z.eqb_eq in Hst. exec. reflexivity.
  - intros body (r & Hpost & Hst & Hjson) Hchoices.
    apply Z.eqb_eq in Hst.
    assert (H0 : getitem (VList []) (VInt 0)
                 = Raised (Exception "list index out of range")) by reflexivity.
    exec. reflexivity.
  - intros e. exec; intros H; try discriminate H; injection H as <-;
      eexists; reflexivity.
Qed.

Lemma prompt_extraction_witness :
  fst (_generate_simulation_prompt
         (Sample.make_env (fun _ _ _ =>
            Returned (Sample.ok_response (VDict [("choices", VList [])]) 200)))
         Sample.refund_script Sample.world)
  = Raised (HTTPException 500
              "Error generating simulation prompt: list index out of range")
  /\ fst (_generate_simulation_prompt Sample.healthy Sample.refund_script
            Sample.world) = Returned (VStr "Act as a customer.").
Proof.
  split.
  - apply (proj1 (proj2 (prompt_extraction _ Sample.refund_script Sample.world))
             (VDict [("choices", VList [])])).
    + eexists. repeat split; reflexivity.
    + reflexivity.
  - apply (proj1 (prompt_extraction Sample.healthy Sample.refund_script
                    Sample.world)).
    eexists _, _, _, _. split; [eexists; repeat split; reflexivity|].
    repeat split; reflexivity.
Defined.

Lemma create_success_form
    (env : Env) (request : CreateSimulationRequest.t) (w w' : World)
    (result : dict) :
  create_simulation env request w = (Returned result, w') ->
  exists prompt,
    let oid := new_object_id env (simulations w) in
    let doc : dict :=
      [ ("name", CreateSimulationRequest.name request);
        ("divisionId", CreateSimulationRequest.division_id request);
        ("departmentId", CreateSimulationRequest.department_id request);
        ("type", CreateSimulationRequest.type request);
        ("script",
          VList (map ScriptLine.to_dict
                   (CreateSimulationRequest.script request)));
        ("lastModifiedBy", CreateSimulationRequest.user_id request);
        ("lastModified", VDatetime (clock env (ticks w)));
        ("createdBy", CreateSimulationRequest.user_id request);
        ("createdOn", VDatetime (clock env (S (ticks w))));
        ("status", VStr "draft");
        ("version", VInt 1);
        ("prompt", prompt);
        ("tags", CreateSimulationRequest.tags request) ] in
    result = [("id", VStr oid); ("status", VStr "success"); ("prompt", prompt)]
    /\ simulations w !! oid = None
    /\ simulations w' = <[oid := doc]> (simulations w)
    /\ ticks w' = S (S (ticks w)).
Proof.
  exec; intros [= <- <-]. eexists. cbn zeta.
  repeat split; try reflexivity; assumption.
Qed.

(** X16.  A successful creation stores one document, under an identifier
    that was free, and changes no other record; the document has exactly
    the thirteen keys of the literal, copies the request's descriptive
    fields and script, and takes [lastModified] and [createdOn] from two
    successive readings of the clock. *)
Theorem created_document_content
    (env : Env) (request : CreateSimulationRequest.t) (w w' : World)
    (result : dict) :
  create_simulation env request w = (Returned result, w') ->
  exists oid doc,
    dict_get "id" result = Some (VStr oid)
    /\ simulations w !! oid = None
    /\ simulations w' !! oid = Some doc
    /\ (forall oid', oid' <> oid ->
          simulations w' !! oid' = simulations w !! oid')
    /\ doc.*1 = [ "name"; "divisionId"; "departmentId"; "type"; "script";
                  "lastModifiedBy"; "lastModified"; "createdBy"; "createdOn";
                  "status"; "version"; "prompt"; "tags" ]
    /\ dict_get "name" doc = Some (CreateSimulationRequest.name request)
    /\ dict_get "divisionId" doc
       = Some (CreateSimulationRequest.division_id request)
    /\ dict_get "departmentId" doc
       = Some (CreateSimulationRequest.department_id request)
    /\ dict_get "type" doc = Some (CreateSimulationRequest.type request)
    /\ dict_get "tags" doc = Some (CreateSimulationRequest.tags request)
    /\ dict_get "script" doc
       = Some (VList (map ScriptLine.to_dict
                        (CreateSimulationRequest.script request)))
    /\ dict_get "lastModified" doc = Some (VDatetime (clock env (ticks w)))
    /\ dict_get "createdOn" doc = Some (VDatetime (clock env (S (ticks w)))).
Proof.
  intros Hrun.
  destruct (create_success_form _ _ _ _ _ Hrun)
    as (prompt & -> & Hfresh & Hnew & _).
  eexists _, _. split; [reflexivity|]. split; [exact Hfresh|].
  split; [rewrite Hnew; apply lookup_insert_eq|].
  split; [intros oid' Hne; rewrite Hnew; apply lookup_insert_ne; congruence|].
  repeat split; reflexivity.
Qed.

Lemma created_document_content_witness :
  exists oid doc,
    dict_get "id"
      [ ("id", VStr Sample.fresh_id); ("status", VStr "success");
        ("prompt", VStr "Act as a customer.") ] = Some (VStr oid)
    /\ simulations
         (snd (create_simulation Sample.healthy Sample.create_request
                 Sample.world)) !! oid = Some doc
    /\ dict_get "name" doc = Some (VStr "Refunds").
Proof.
  destruct (created_document_content Sample.healthy Sample.create_request
              Sample.world
              (snd (create_simulation Sample.healthy Sample.create_request
                      Sample.world))
              [ ("id", VStr Sample.fresh_id); ("status", VStr "success");
                ("prompt", VStr "Act as a customer.") ])
    as (oid & doc & Hid & _ & Hdoc & _ & _ & Hname & _).
  - vm_compute. reflexivity.
  - exists oid, doc. repeat split; assumption.
Defined.

(** X17.  Creation raises only status 500 under its prefix: a generation
    failure appears behind the prefix with its own status and text; when
    generation succeeded the insert was attempted with the generated
    prompt and the failure is the one of the insert (the driver's, or
    the store's refusal of a taken identifier) behind the prefix. *)
Theorem create_failures_are_wrapped
    (env : Env) (request : CreateSimulationRequest.t) (w : World) (e : exn) :
  fst (create_simulation env request w) = Raised e ->
  (exists m, e = HTTPException 500 ("Error creating simulation: " +:+ m))
  /\ (forall e0,
        fst (_generate_simulation_prompt env
               (CreateSimulationRequest.script request) w) = Raised e0 ->
        e = HTTPException 500 ("Error creating simulation: " +:+ str e0))
  /\ (forall prompt,
        fst (_generate_simulation_prompt env
               (CreateSimulationRequest.script request) w) = Returned prompt ->
        exists doc m,
          store_writes (trace (snd (create_simulation env request w)))
            = store_writes (trace w) ++ [DbInsertOne doc]
          /\ dict_get "prompt" doc = Some prompt
          /\ e = HTTPException 500 ("Error creating simulation: " +:+ m)
          /\ (insert_error env doc = Some m
              \/ (insert_error env doc = None
                  /\ is_Some (simulations w !! new_object_id env (simulations w))
                  /\ m = duplicate_key_error env
                           (new_object_id env (simulations w))))).
Proof.
  exec; intros H; try discriminate H; injection H as <-;
    (split; [eexists; reflexivity|]);
    (split; [intros ? [=]; subst; reflexivity|]);
    intros ? [=]; subst; eexists _, _;
    (split; [simpl_traces; reflexivity|]);
    (split; [reflexivity|]); (split; [reflexivity|]);
    first [ left; assumption
          | right; split; [assumption|]; split; [eauto | reflexivity] ].
Qed.

Lemma create_failures_are_wrapped_witness :
  let unreachable : Env :=
    {| OPENAI_API_KEY := "sk-test";
       RETELL_API_KEY := "key_test";
       session_post := Sample.healthy_post;
       clock := fun n => (1000 + Z.of_nat n)%Z;
       insert_error := fun _ => Some "localhost:27017: connection refused";
       new_object_id := fun _ => Sample.fresh_id;
       duplicate_key_error := fun oid => "E11000 duplicate key: " +:+ oid |} in
  (exists m,
     HTTPException 500
       "Error creating simulation: 500: Error generating simulation prompt: 429: <ClientResponse>"
     = HTTPException 500 ("Error creating simulation: " +:+ m))
  /\ exists doc m,
       store_writes
         (trace (snd (create_simulation unreachable Sample.create_request
                        Sample.world))) = [DbInsertOne doc]
       /\ HTTPException 500
            "Error creating simulation: localhost:27017: connection refused"
          = HTTPException 500 ("Error creating simulation: " +:+ m).
Proof.
  intros unreachable. split.
  - apply (proj1 (create_failures_are_wrapped (Sample.failing 429)
                    Sample.create_request Sample.world _ eq_refl)).
  - destruct (proj2 (proj2 (create_failures_are_wrapped unreachable
                              Sample.create_request Sample.world _ eq_refl))
                (VStr "Act as a customer.") eq_refl)
      as (doc & m & Hw & _ & He & _).
    exists doc, m. split; [exact Hw | exact He].
Defined.

(** * Operations in sequence *)

(** X18.  Create then preview: the record a successful creation stored
    has no agent, so a preview of the returned identifier (a well-formed
    one) fails with 400 after the lookup alone, whatever the providers
    would answer. *)
Theorem fresh_simulation_cannot_be_previewed
    (env env' : Env) (request : CreateSimulationRequest.t) (user_id : value)
    (w w1 : World) (result : dict) :
  let id := new_object_id env (simulations w) in
  create_simulation env request w = (Returned result, w1) ->
  ObjectId id = Returned id ->
  dict_get "id" result = Some (VStr id)
  /\ start_audio_simulation_preview env' id user_id w1
     = (Raised (HTTPException 400
                  "Simulation does not have an agent configured"),
        add_event (DbFindOne id) w1).
Proof.
  intros id Hrun Hid. subst id.
  destruct (create_success_form _ _ _ _ _ Hrun)
    as (prompt & -> & Hfresh & Hnew & _).
  split; [reflexivity|].
  eapply preview_falsy_agent_run; [exact Hid | | ].
  - rewrite Hnew. apply lookup_insert_eq.
  - reflexivity.
Qed.

Lemma fresh_simulation_cannot_be_previewed_witness :
  let w1 := snd (create_simulation Sample.healthy Sample.create_request
                   Sample.world) in
  fst (start_audio_simulation_preview Sample.healthy Sample.fresh_id
         (VStr "u1") w1)
  = Raised (HTTPException 400 "Simulation does not have an agent configured").
Proof.
  intros w1.
  destruct (fresh_simulation_cannot_be_previewed Sample.healthy Sample.healthy
              Sample.create_request (VStr "u1") Sample.world w1
              [ ("id", VStr Sample.fresh_id); ("status", VStr "success");
                ("prompt", VStr "Act as a customer.") ]) as [_ Hp].
  - vm_compute. reflexivity.
  - reflexivity.
  - change (new_object_id Sample.healthy (simulations Sample.world))
      with Sample.fresh_id in Hp.
    rewrite Hp. reflexivity.
Defined.

Lemma update_success_agent
    (env : Env) (sim_id : string) (request : UpdateSimulationRequest.t)
    (w w1 : World) (result : dict) :
  update_simulation env sim_id request w = (Returned result, w1) ->
  is_None (UpdateSimulationRequest.prompt request) = false ->
  exists oid doc llm_id agent_response agent_id,
    ObjectId sim_id = Returned oid
    /\ simulations w1 !! oid = Some doc
    /\ dict_get "agentId" doc = Some agent_id
    /\ answers env create_agent_url (RETELL_API_KEY env)
         (agent_body llm_id
            (py_or (UpdateSimulationRequest.voice_id request)
                   (VStr "11labs-Adrian")))
         201 agent_response
    /\ getitem agent_response (VStr "agent_id") = Returned agent_id.
Proof.
  exec; intros [= <- <-] Hprompt; try congruence.
  match goal with
  | Hm : add_mapped_fields _ _ _ = Returned ?d0,
    Hs : simulations w !! ?oid = Some ?old,
    Hp : session_post _ create_agent_url _
           (VDict [("response_engine", VDict [("llm_id", ?llm); _]); _])
         = Returned ?r,
    Hj : ClientResponse.json ?r = Returned ?resp,
    Hg : getitem ?resp (VStr "agent_id") = Returned ?agent |- _ =>
      pose proof (staged_NoDup _ _ Hm) as Hnd;
      exists oid; eexists; exists llm, resp, agent
  end.
  split; [reflexivity|]. cbn [simulations].
  split; [apply lookup_insert_eq|]. split.
  { rewrite dict_get_update by (repeat apply dict_set_NoDup; exact Hnd).
    rewrite !dict_get_set_ne by discriminate. rewrite dict_get_set_eq.
    reflexivity. }
  split; [|assumption].
  eexists. split; [eassumption|]. split; [apply Z.eqb_eq|]; assumption.
Qed.

(** X19.  Update then preview: after a successful update with a prompt
    the stored [agentId] is the identifier the agent creation returned;
    a following preview posts the web-call request for exactly that
    identifier when it is truthy, and fails with 400 when it is not. *)
Theorem preview_uses_the_agent_of_the_last_prompt
    (env env' : Env) (sim_id : string) (request : UpdateSimulationRequest.t)
    (user_id : value) (w w1 : World) (result : dict) :
  update_simulation env sim_id request w = (Returned result, w1) ->
  is_None (UpdateSimulationRequest.prompt request) = false ->
  exists oid llm_id agent_response agent_id,
    ObjectId sim_id = Returned oid
    /\ answers env create_agent_url (RETELL_API_KEY env)
         (agent_body llm_id
            (py_or (UpdateSimulationRequest.voice_id request)
                   (VStr "11labs-Adrian")))
         201 agent_response
    /\ getitem agent_response (VStr "agent_id") = Returned agent_id
    /\ stored_field w1 oid "agentId" = Some agent_id
    /\ (truthy agent_id = true ->
        provider_calls
          (trace (snd (start_audio_simulation_preview env' sim_id user_id w1)))
        = provider_calls (trace w1) ++
          [HttpPost create_web_call_url (bearer_headers (RETELL_API_KEY env'))
             (VDict [("agent_id", agent_id)])])
    /\ (truthy agent_id = false ->
        fst (start_audio_simulation_preview env' sim_id user_id w1)
        = Raised (HTTPException 400
                    "Simulation does not have an agent configured")).
Proof.
  intros Hrun Hprompt.
  destruct (update_success_agent _ _ _ _ _ _ Hrun Hprompt)
    as (oid & doc & llm_id & agent_response & agent_id & Hoid & Hdoc & Hagent
        & Hanswer & Hget).
  exists oid, llm_id, agent_response, agent_id.
  split; [exact Hoid|]. split; [exact Hanswer|]. split; [exact Hget|].
  split; [unfold stored_field; rewrite Hdoc; exact Hagent|].
  split; intros Ht.
  - eapply preview_posts_web_call; eassumption.
  - erewrite preview_falsy_agent_run; [reflexivity | eassumption | eassumption | ].
    unfold dict_get_or_none. rewrite Hagent. exact Ht.
Qed.

Lemma preview_uses_the_agent_of_the_last_prompt_witness :
  let w1 := snd (update_simulation Sample.healthy Sample.known_id
                   (Sample.update_request VNone Sample.polite_prompt VNone)
                   Sample.world) in
  exists agent_id,
    stored_field w1 Sample.known_id "agentId" = Some agent_id
    /\ getitem (VDict [("agent_id", VStr "agent_1")]) (VStr "agent_id")
       = Returned agent_id.
Proof.
  intros w1.
  destruct (preview_uses_the_agent_of_the_last_prompt Sample.healthy
              Sample.healthy Sample.known_id
              (Sample.update_request VNone Sample.polite_prompt VNone)
              (VStr "u1") Sample.world w1
              [("id", VStr Sample.known_id); ("status", VStr "success")])
    as (oid & llm_id & agent_response & agent_id & Hoid & Hanswer & Hget
        & Hstored & _).
  - vm_compute. reflexivity.
  - reflexivity.
  - injection Hoid as <-. exists agent_id. split; [exact Hstored|].
    destruct Hanswer as (r & Hpost & _ & Hjson).
    injection Hpost as <-. injection Hjson as <-. exact Hget.
Defined.

(** * Configuration *)

Lemma empty_spec (s : string) : Config.empty s = true <-> s = EmptyString.
Proof. unfold Config.empty. apply String.eqb_eq. Qed.

Lemma getenv_empty_not_blank (env : Config.environ) (name default : string) :
  default <> EmptyString ->
  Config.empty (Config.getenv env name default) = false
  <-> Config.not_blank env name.
Proof.
  intros Hd. unfold Config.getenv, Config.not_blank.
  destruct (env name) as [v|]; split; intros H.
  - intros [= ->]. discriminate H.
  - destruct (Config.empty v) eqn:E; [|reflexivity].
    apply empty_spec in E. subst v. contradiction.
  - discriminate.
  - destruct (Config.empty default) eqn:E; [|reflexivity].
    apply empty_spec in E. contradiction.
Qed.

Lemma getenv_empty_provided (env : Config.environ) (name : string) :
  Config.empty (Config.getenv env name EmptyString) = false
  <-> Config.provided env name.
Proof.
  unfold Config.getenv, Config.provided.
  destruct (env name) as [v|]; split; intros H.
  - exists v. split; [reflexivity|]. intros ->. discriminate H.
  - destruct H as (v' & [= <-] & Hv).
    destruct (Config.empty v) eqn:E; [|reflexivity].
    apply empty_spec in E. contradiction.
  - discriminate H.
  - destruct H as (v' & [=] & _).
Qed.

(** X20.  The configuration loads exactly when the three variables with
    a non-empty default are not set to the empty string and the three
    Azure variables, whose default is empty, are set and non-empty. *)
Theorem config_loads_iff (env : Config.environ) :
  (exists c, Config.load env = Returned c)
  <-> Config.not_blank env "mongo-url"
      /\ Config.not_blank env "DEEPGRAM_API_KEY"
      /\ Config.not_blank env "RETELL_API_KEY"
      /\ Config.provided env "AZURE_OPENAI_DEPLOYMENT_NAME"
      /\ Config.provided env "AZURE_OPENAI_KEY"
      /\ Config.provided env "AZURE_OPENAI_BASE_URL".
Proof.
  rewrite <- (getenv_empty_not_blank env "mongo-url" "mongodb://localhost:27017")
    by discriminate.
  rewrite <- (getenv_empty_not_blank env "DEEPGRAM_API_KEY"
                "90b109a0bc690efde72b6e9da892d9371885cb8f") by discriminate.
  rewrite <- (getenv_empty_not_blank env "RETELL_API_KEY"
                "key_c98334da2d625bae2d5c9a24d33f") by discriminate.
  rewrite <- !getenv_empty_provided.
  unfold Config.load. cbn [negb].
  repeat match goal with
    | |- context [if Config.empty ?x then _ else _] =>
        destruct (Config.empty x)
    end;
    split; intros H;
    first [ destruct H as [c [=]]; fail
          | destruct H as (? & ? & ? & ? & ? & ?); congruence
          | repeat split; reflexivity
          | eexists; reflexivity ].
Qed.

(** X21.  In a loaded configuration the connection string and the five
    keys are non-empty; the database name is whatever the environment
    gives (or the default) and may be empty. *)
Theorem config_loaded_values (env : Config.environ) (c : Config.t) :
  Config.load env = Returned c ->
  Config.MONGO_URI c <> EmptyString
  /\ Config.DEEPGRAM_API_KEY c <> EmptyString
  /\ Config.RETELL_API_KEY c <> EmptyString
  /\ Config.AZURE_OPENAI_DEPLOYMENT_NAME c <> EmptyString
  /\ Config.AZURE_OPENAI_KEY c <> EmptyString
  /\ Config.AZURE_OPENAI_BASE_URL c <> EmptyString
  /\ Config.MONGO_URI c
     = Config.getenv env "mongo-url" "mongodb://localhost:27017"
  /\ Config.DB_NAME c = Config.getenv env "db-name" "everai_simulator"
  /\ (env "db-name" = Some EmptyString -> Config.DB_NAME c = EmptyString).
Proof.
  unfold Config.load. cbn [negb].
  repeat match goal with
    | |- context [if Config.empty ?x then _ else _] =>
        let E := fresh "E" in destruct (Config.empty x) eqn:E
    end; intros [= <-]. cbn.
  repeat split;
    try (intros H; apply empty_spec in H; congruence).
  intros H. unfold Config.getenv. rewrite H. reflexivity.
Qed.

Lemma config_loaded_values_witness :
  let env := Config.environ_of
    [ ("db-name", EmptyString);
      ("AZURE_OPENAI_DEPLOYMENT_NAME", "gpt");
      ("AZURE_OPENAI_KEY", "k");
      ("AZURE_OPENAI_BASE_URL", "https://example.invalid") ] in
  exists c, Config.load env = Returned c
            /\ Config.DB_NAME c = EmptyString
            /\ Config.MONGO_URI c = "mongodb://localhost:27017".
Proof.
  intros env. eexists. split; [reflexivity|].
  destruct (config_loaded_values env _ eq_refl)
    as (_ & _ & _ & _ & _ & _ & Hm & _ & Hdb).
  split; [exact (Hdb eq_refl) | exact Hm].
Defined.

(** X22.  The first failing check decides the error: an empty
    [mongo-url] gives the MongoDB message whatever else is set; when the
    first three checks pass, a missing or empty deployment name gives its
    message; so an environment that sets nothing does not load. *)
Theorem config_first_failure_wins (env : Config.environ) :
  (env "mongo-url" = Some EmptyString ->
     Config.load env = Raised (Exception
       "MongoDB URI not set. Please set 'mongo-url' environment variable."))
  /\ (Config.not_blank env "mongo-url" ->
      Config.not_blank env "DEEPGRAM_API_KEY" ->
      Config.not_blank env "RETELL_API_KEY" ->
      ~ Config.provided env "AZURE_OPENAI_DEPLOYMENT_NAME" ->
      Config.load env = Raised (Exception
        "Azure OpenAI deployment name not set. Please set AZURE_OPENAI_DEPLOYMENT_NAME environment variable."))
  /\ ((forall name, env name = None) ->
      Config.load env = Raised (Exception
        "Azure OpenAI deployment name not set. Please set AZURE_OPENAI_DEPLOYMENT_NAME environment variable.")).
Proof.
  assert (Hchain :
    Config.not_blank env "mongo-url" ->
    Config.not_blank env "DEEPGRAM_API_KEY" ->
    Config.not_blank env "RETELL_API_KEY" ->
    ~ Config.provided env "AZURE_OPENAI_DEPLOYMENT_NAME" ->
    Config.load env = Raised (Exception
      "Azure OpenAI deployment name not set. Please set AZURE_OPENAI_DEPLOYMENT_NAME environment variable.")).
  { intros Hm Hd Hr Ha.
    apply (getenv_empty_not_blank env "mongo-url" "mongodb://localhost:27017")
      in Hm; [|discriminate].
    apply (getenv_empty_not_blank env "DEEPGRAM_API_KEY"
             "90b109a0bc690efde72b6e9da892d9371885cb8f") in Hd; [|discriminate].
    apply (getenv_empty_not_blank env "RETELL_API_KEY"
             "key_c98334da2d625bae2d5c9a24d33f") in Hr; [|discriminate].
    rewrite <- getenv_empty_provided in Ha.
    apply not_false_is_true in Ha.
    unfold Config.load. cbn [negb]. rewrite Hm, Hd, Hr, Ha. reflexivity. }
  split; [|split; [exact Hchain|]].
  - intros H. unfold Config.load, Config.getenv. rewrite H. reflexivity.
  - intros Hnone. apply Hchain; unfold Config.not_blank, Config.provided;
      rewrite ?Hnone; try discriminate.
    intros (v & [=] & _).
Qed.

Lemma config_first_failure_wins_witness :
  Config.load (Config.environ_of [("mongo-url", EmptyString);
                                  ("RETELL_API_KEY", EmptyString)])
  = Raised (Exception
      "MongoDB URI not set. Please set 'mongo-url' environment variable.")
  /\ Config.load (Config.environ_of [])
     = Raised (Exception
         "Azure OpenAI deployment name not set. Please set AZURE_OPENAI_DEPLOYMENT_NAME environment variable.").
Proof.
  split.
  - apply (proj1 (config_first_failure_wins _)). reflexivity.
  - apply (proj2 (proj2 (config_first_failure_wins _))). reflexivity.
Defined.

Lemma config_loads_iff_witness :
  exists c,
    Config.load (Config.environ_of
      [ ("AZURE_OPENAI_DEPLOYMENT_NAME", "gpt");
        ("AZURE_OPENAI_KEY", "k");
        ("AZURE_OPENAI_BASE_URL", "https://example.invalid") ]) = Returned c.
Proof.
  apply (proj2 (config_loads_iff _)).
  repeat split; try (eexists; split; [reflexivity|discriminate]); discriminate.
Defined.

(** * The store handle *)

Lemma new_when_set (drv : Database.driver) (mongo_uri db_name : string)
    (cls : Database.class_state) (obj : Database.instance) :
  Database._instance cls = Some obj ->
  Database.new drv mongo_uri db_name cls = (Returned obj, cls).
Proof. intros H. unfold Database.new. rewrite H. reflexivity. Qed.

Lemma new_times_when_set (drv : Database.driver) (mongo_uri db_name : string)
    (n : nat) (cls : Database.class_state) (obj : Database.instance) :
  Database._instance cls = Some obj ->
  Database.new_times drv mongo_uri db_name n cls
  = (repeat (Returned obj) n, cls).
Proof.
  intros H. induction n as [|n IH]; [reflexivity|].
  cbn [Database.new_times repeat]. rewrite (new_when_set _ _ _ _ _ H), IH.
  reflexivity.
Qed.

(** X23.  The store handle is a singleton: after a first successful
    construction one client exists, and any number of later
    constructions, with whatever connection data, return the same object
    and leave the class as it is. *)
Theorem database_is_a_singleton
    (drv drv' : Database.driver)
    (mongo_uri db_name mongo_uri' db_name' : string) (n : nat)
    (obj : Database.instance) (cls : Database.class_state) :
  Database.new drv mongo_uri db_name Database.initial = (Returned obj, cls) ->
  obj = Database.collections db_name
  /\ Database.clients cls = [mongo_uri]
  /\ Database.new_times drv' mongo_uri' db_name' n cls
     = (repeat (Returned obj) n, cls)
  /\ Database.SimulationService_init drv' mongo_uri' db_name' cls
     = (Returned obj, cls)
  /\ Database.attribute obj "simulations"
     = Returned {| Database.database := db_name;
                   Database.collection_name := "simulations" |}.
Proof.
  unfold Database.new at 1. cbn [Database._instance Database.initial].
  destruct (Database.client_error drv mongo_uri); [discriminate|].
  destruct (Database.database_error drv db_name); [discriminate|].
  intros [= <- <-]. split; [reflexivity|]. split; [reflexivity|].
  split; [apply new_times_when_set; reflexivity|].
  split; reflexivity.
Qed.

Lemma database_is_a_singleton_witness :
  let obj := Database.collections "everai_simulator" in
  let cls := {| Database._instance := Some obj;
                Database.clients := ["mongodb://localhost:27017"] |} in
  Database.new Database.accepting "mongodb://localhost:27017"
    "everai_simulator" Database.initial = (Returned obj, cls)
  /\ Database.new_times Database.accepting "mongodb://localhost:27017"
       "everai_simulator" 2 cls
     = ([Returned obj; Returned obj], cls).
Proof.
  intros obj cls. split; [reflexivity|].
  exact (proj1 (proj2 (proj2
    (database_is_a_singleton Database.accepting Database.accepting
       "mongodb://localhost:27017" "everai_simulator"
       "mongodb://localhost:27017" "everai_simulator" 2 obj cls eq_refl)))).
Defined.

(** X24.  A failed first construction is not retried: the object bound
    to [_instance] before the failure has no collections, every later
    construction returns it as it is, and reading any collection from it
    is an attribute error. *)
Theorem database_failure_is_not_retried
    (drv drv' : Database.driver)
    (mongo_uri db_name mongo_uri' db_name' : string) (n : nat) (e : exn)
    (cls : Database.class_state) :
  Database.new drv mongo_uri db_name Database.initial = (Raised e, cls) ->
  Database.new_times drv' mongo_uri' db_name' n cls
    = (repeat (Returned []) n, cls)
  /\ (forall name,
        Database.attribute [] name
        = Raised (Exception
            ("'Database' object has no attribute '" +:+ name +:+ "'")))
  /\ (Database.clients cls = [] \/ Database.clients cls = [mongo_uri]).
Proof.
  unfold Database.new at 1. cbn [Database._instance Database.initial].
  destruct (Database.client_error drv mongo_uri);
    [|destruct (Database.database_error drv db_name)];
    intros [= <- <-];
    (split; [apply new_times_when_set; reflexivity|]);
    (split; [reflexivity|]); auto.
Qed.

Lemma database_failure_is_not_retried_witness :
  let cls := {| Database._instance := Some []; Database.clients := [] |} in
  Database.new (Database.refusing_uri "localhost" "Invalid URI scheme")
    "localhost" "everai_simulator" Database.initial
  = (Raised (Exception "Invalid URI scheme"), cls)
  /\ Database.new_times Database.accepting "mongodb://localhost:27017"
       "everai_simulator" 2 cls
     = ([Returned []; Returned []], cls).
Proof.
  intros cls. split; [reflexivity|].
  exact (proj1
    (database_failure_is_not_retried
       (Database.refusing_uri "localhost" "Invalid URI scheme")
       Database.accepting "localhost" "everai_simulator"
       "mongodb://localhost:27017" "everai_simulator" 2 _ cls eq_refl)).
Defined.
